(** * Dropdown interaction engine

    A shallow embedding of the selection state machine of the [Dropdown]
    component (src/unnamed/part_001): the derived candidate list
    ([getAutoControlledStateFromProps]), the highlight defaults on opening
    ([getHighlightedIndexOnArrowKeyOpen]), type-ahead
    ([setHighlightedIndexOnCharKeyDown]) and the selection, removal and
    clear handlers.

    Conventions.
    - A handler reads [this.state] as it is when the handler starts (React
      applies the queued updates after the handler returns) and produces a
      trace of effects: state updates, notifications to the caller's event
      handlers, focus moves and timers.  [exec] applies the queued updates in
      order and then recomputes the derived fields.
    - JavaScript [null] and [undefined] are both [None].
    - A JavaScript [TypeError] (a property read on [undefined]) is the
      [TypeError] result; a handler that throws is not followed further.
    - The callbacks of the selection widget (Downshift) that a handler is
      given are parameters of the handler; what the widget reports back
      arrives as a notification ([handleStateChange], [handleSelectedChange],
      [handleSearchQueryChange]) of its own. *)

From stdpp Require Import base list strings gmap.
From Stdlib Require Import ZArith Lia Ascii.


(** ** Results of computations that may throw *)

Inductive result (A : Type) : Type :=
| Ok (a : A)
| TypeError.
Arguments Ok {A} a.
Arguments TypeError {A}.

Definition rbind {A B} (r : result A) (k : A → result B) : result B :=
  match r with
  | Ok a => k a
  | TypeError => TypeError
  end.

Notation "'let*' x ':=' r 'in' k" := (rbind r (fun x => k))
  (at level 10, x name, r at level 100, k at level 200).

(** ** Items

    An item is a primitive string, a shorthand object (compared by reference,
    with an optional [header] field) or a React element. *)

Inductive Item : Type :=
| Str (s : string)
| Obj (ref : nat) (header : option string)
| Elem (ref : nat).

#[global] Instance Item_eq_dec : EqDecision Item.
Proof. solve_decision. Defined.

(** JavaScript truthiness of an item: only the empty string is falsy. *)
Definition truthy (i : Item) : bool :=
  match i with
  | Str "" => false
  | _ => true
  end.

(** [String(item)] *)
Definition String_of (i : Item) : string :=
  match i with
  | Str s => s
  | _ => "[object Object]"
  end.

(** [defaultProps.itemToString] *)
Definition defaultItemToString (item : option Item) : string :=
  match item with
  | None => ""
  | Some i =>
      if negb (truthy i) then ""
      else match i with
           | Elem _ => ""
           | Obj _ (Some h) => if decide (h = "") then String_of i else h
           | _ => String_of i
           end
  end.

(** ** String and array primitives *)

Definition lower_ascii (c : ascii) : ascii :=
  let n := Ascii.nat_of_ascii c in
  if (65 <=? n)%nat && (n <=? 90)%nat then Ascii.ascii_of_nat (n + 32) else c.

(** [s.toLowerCase()], on the ASCII range. *)
Fixpoint toLowerCase (s : string) : string :=
  match s with
  | EmptyString => EmptyString
  | String c s' => String (lower_ascii c) (toLowerCase s')
  end.

(** [s.indexOf(q) !== -1] *)
Definition includes (q s : string) : bool :=
  match String.index 0 q s with
  | Some _ => true
  | None => false
  end.

(** [item.startsWith(p)] *)
Definition startsWith (s p : string) : bool := String.prefix p s.

(** [array.indexOf(x)]: the first position of [x], or [-1]. *)
Definition indexOf {A} `{EqDecision A} (l : list A) (x : A) : Z :=
  match list_find (λ y, y = x) l with
  | Some (i, _) => Z.of_nat i
  | None => (-1)%Z
  end.

(** [_.difference(array, values)] *)
Definition difference (l k : list Item) : list Item := list_difference l k.

(** [_.findIndex(array, predicate, fromIndex)]: [-1] on a missing or empty
    array; a negative [fromIndex] counts from the end and is clamped at 0. *)
Definition findIndex {A} (array : option (list A)) (predicate : A → bool)
    (fromIndex : Z) : Z :=
  match array with
  | None => (-1)%Z
  | Some l =>
      let len := Z.of_nat (length l) in
      if (len =? 0)%Z then (-1)%Z
      else
        let index := if (fromIndex <? 0)%Z then Z.max (len + fromIndex) 0
                     else fromIndex in
        match list_find (λ y, predicate y = true)
                (drop (Z.to_nat index) l) with
        | Some (i, _) => (index + Z.of_nat i)%Z
        | None => (-1)%Z
        end
  end.

(** [array.pop()] leaves [removelast array] behind. *)
Definition pop {A} (l : list A) : option A * list A := (last l, removelast l).

(** ** Props and state *)

(** The committed selection: one nullable item, or the chips of a multiple
    selection. *)
Inductive Value : Type :=
| Single (v : option Item)
| Multi (vs : list Item).

(** The [search] prop: absent or [false], [true], or a custom function. *)
Inductive Search : Type :=
| NoSearch
| BuiltinSearch
| CustomSearch (f : list Item → option string → list Item).

Record A11ySelectionMessage : Type := {
  onAdd : option (Item → string);
  onRemove : option (option Item → string);
}.

Record DropdownProps : Type := {
  items : option (list Item);
  itemToString : Item → string;
  multiple : bool;
  search : Search;
  highlightFirstItemOnOpen : bool;
  moveFocusOnTab : bool;
  placeholder : option string;
  getA11ySelectionMessage : option A11ySelectionMessage;
}.

Record DropdownState : Type := {
  a11ySelectionStatus : string;
  activeSelectedIndex : option Z;
  filteredItems : option (list Item);
  filteredItemStrings : option (list string);
  focused : bool;
  startingString : option string;
  open : bool;
  searchQuery : option string;
  highlightedIndex : option Z;
  value : Value;
  itemIsFromKeyboard : bool;
  isFromKeyboard : bool;
}.

(** One key of a partial state object [{ key: v }]. *)
Inductive Assign : Type :=
| Set_a11ySelectionStatus (s : string)
| Set_activeSelectedIndex (i : option Z)
| Set_filteredItems (l : list Item)
| Set_filteredItemStrings (l : list string)
| Set_focused (b : bool)
| Set_startingString (s : string)
| Set_open (b : bool)
| Set_searchQuery (q : option string)
| Set_highlightedIndex (i : option Z)
| Set_value (v : Value)
| Set_itemIsFromKeyboard (b : bool)
| Set_isFromKeyboard (b : bool).

Definition assign (st : DropdownState) (a : Assign) : DropdownState :=
  let '{| a11ySelectionStatus := f1; activeSelectedIndex := f2;
          filteredItems := f3; filteredItemStrings := f4; focused := f5;
          startingString := f6; open := f7; searchQuery := f8;
          highlightedIndex := f9; value := f10; itemIsFromKeyboard := f11;
          isFromKeyboard := f12 |} := st in
  match a with
  | Set_a11ySelectionStatus x =>
      Build_DropdownState x f2 f3 f4 f5 f6 f7 f8 f9 f10 f11 f12
  | Set_activeSelectedIndex x =>
      Build_DropdownState f1 x f3 f4 f5 f6 f7 f8 f9 f10 f11 f12
  | Set_filteredItems x =>
      Build_DropdownState f1 f2 (Some x) f4 f5 f6 f7 f8 f9 f10 f11 f12
  | Set_filteredItemStrings x =>
      Build_DropdownState f1 f2 f3 (Some x) f5 f6 f7 f8 f9 f10 f11 f12
  | Set_focused x =>
      Build_DropdownState f1 f2 f3 f4 x f6 f7 f8 f9 f10 f11 f12
  | Set_startingString x =>
      Build_DropdownState f1 f2 f3 f4 f5 (Some x) f7 f8 f9 f10 f11 f12
  | Set_open x =>
      Build_DropdownState f1 f2 f3 f4 f5 f6 x f8 f9 f10 f11 f12
  | Set_searchQuery x =>
      Build_DropdownState f1 f2 f3 f4 f5 f6 f7 x f9 f10 f11 f12
  | Set_highlightedIndex x =>
      Build_DropdownState f1 f2 f3 f4 f5 f6 f7 f8 x f10 f11 f12
  | Set_value x =>
      Build_DropdownState f1 f2 f3 f4 f5 f6 f7 f8 f9 x f11 f12
  | Set_itemIsFromKeyboard x =>
      Build_DropdownState f1 f2 f3 f4 f5 f6 f7 f8 f9 f10 x f12
  | Set_isFromKeyboard x =>
      Build_DropdownState f1 f2 f3 f4 f5 f6 f7 f8 f9 f10 f11 x
  end.

(** Merging a partial state object into the state, key after key. *)
Definition merge (st : DropdownState) (patch : list Assign) : DropdownState :=
  foldl assign st patch.

(** ** Effects of a handler *)

Inductive HandlerName : Type :=
| onOpenChange
| onSearchQueryChange
| onSelectedChange.

Inductive FocusTarget : Type :=
| buttonRef
| inputRef
| listRef.

Inductive Timer : Type :=
| a11yStatusTimeout
| charKeysPressedTimeout.

Inductive Effect : Type :=
| SetState (patch : list Assign)
| Invoke (h : HandlerName) (patch : list Assign)
| Focus (t : FocusTarget)
| ClearTimeout (t : Timer)
| SetTimeout (t : Timer) (delay : Z)
| ScrollSelectedItemsToEnd
| PreventDefault
| StopPropagation.

(** What a handler does: its trace of effects, or a thrown [TypeError]. *)
Definition Action : Type := result (list Effect).

Definition skip : Action := Ok [].
Definition emit (e : Effect) : Action := Ok [e].
Definition andThen (a b : Action) : Action :=
  let* l1 := a in let* l2 := b in Ok (l1 ++ l2).
Notation "a ;; b" := (andThen a b)
  (at level 100, b at level 200, right associativity).

(** [static a11yStatusCleanupTime] and [static charKeyPressedCleanupTime] *)
Definition a11yStatusCleanupTime : Z := 500.
Definition charKeyPressedCleanupTime : Z := 500.

(** ** Key codes and notifications of the selection widget *)

Module keyboardKey.
Definition Backspace : Z := 8.
Definition Tab : Z := 9.
Definition Escape : Z := 27.
Definition ArrowLeft : Z := 37.
Definition ArrowUp : Z := 38.
Definition ArrowRight : Z := 39.
Definition Delete : Z := 46.
End keyboardKey.

(** [Downshift.stateChangeTypes], as far as the component tells them apart. *)
Inductive StateChangeType : Type :=
| keyDownArrowUp
| keyDownArrowDown
| itemMouseEnter
| blurButton
| otherChange.

#[global] Instance StateChangeType_eq_dec : EqDecision StateChangeType.
Proof. solve_decision. Defined.

(** The [changes] object handed to [onStateChange]. *)
Record StateChangeOptions : Type := {
  type : StateChangeType;
  isOpen : option bool;
  changes_highlightedIndex : option Z;
}.

(** Truthiness of a nullable number: [null] and [0] are falsy. *)
Definition numberTruthy (n : option Z) : bool :=
  match n with
  | Some z => negb (z =? 0)%Z
  | None => false
  end.

(** Truthiness of the [search] prop. *)
Definition searchTruthy (s : Search) : bool :=
  match s with
  | NoSearch => false
  | _ => true
  end.

(** Truthiness of [state.value]: an array is truthy even when empty. *)
Definition valueTruthy (v : Value) : bool :=
  match v with
  | Single (Some i) => truthy i
  | Single None => false
  | Multi _ => true
  end.

(** [items.indexOf(value)]: an array is never an element of [items]. *)
Definition indexOfValue (its : list Item) (v : Value) : Z :=
  match v with
  | Single (Some i) => indexOf its i
  | _ => (-1)%Z
  end.

(** [value as ShorthandCollection]: under [multiple] the value is an array.
    The cast is unchecked in the source; the model stops where the code
    would go on with a value that is not an array. *)
Definition asCollection (v : Value) : result (list Item) :=
  match v with
  | Multi vs => Ok vs
  | Single _ => TypeError
  end.

(** [array.filter(callback)] for a callback that may throw. *)
Fixpoint filterR {A} (f : A → result bool) (l : list A) : result (list A) :=
  match l with
  | [] => Ok []
  | x :: l' =>
      let* b := f x in
      let* r := filterR f l' in
      Ok (if b then x :: r else r)
  end.

(** [`${s}`] for a string that may be [undefined]. *)
Definition template (s : option string) : string :=
  match s with
  | Some s => s
  | None => "undefined"
  end.

(** [/[a-zA-Z0-9]/.test(String.fromCharCode(keyCode))] *)
Definition isAlphanumericCode (keyCode : Z) : bool :=
  ((48 <=? keyCode) && (keyCode <=? 57) ||
   (65 <=? keyCode) && (keyCode <=? 90) ||
   (97 <=? keyCode) && (keyCode <=? 122))%Z.

(** [String.fromCharCode(keyCode)], for a code below 256. *)
Definition fromCharCode (keyCode : Z) : string :=
  String (Ascii.ascii_of_nat (Z.to_nat keyCode)) EmptyString.

(** ** The component *)

Section Dropdown.

(** [this.props] *)
Variable props : DropdownProps.

Definition getInitialAutoControlledState : DropdownState :=
  {| a11ySelectionStatus := "";
     activeSelectedIndex := None;
     filteredItems := None;
     filteredItemStrings := None;
     focused := false;
     startingString := if searchTruthy (search props) then None else Some "";
     open := false;
     highlightedIndex :=
       if highlightFirstItemOnOpen props then Some 0%Z else None;
     searchQuery := if searchTruthy (search props) then Some "" else None;
     value := if multiple props then Multi [] else Single None;
     itemIsFromKeyboard := false;
     isFromKeyboard := false |}.

(** The partial state computed from props and state: [None] is the
    source's [return null]. *)
Definition getAutoControlledStateFromProps (state : DropdownState)
    : result (option (list Assign)) :=
  match items props with
  | None => Ok None
  | Some its =>
      let filteredItemsByValue :=
        if multiple props then
          match value state with
          | Multi vs => difference its vs
          | Single _ => its
          end
        else its in
      match search props with
      | CustomSearch f =>
          Ok (Some [Set_filteredItems
                      (f filteredItemsByValue (searchQuery state))])
      | BuiltinSearch =>
          let* l := filterR
                      (λ item,
                         match searchQuery state with
                         | Some q =>
                             Ok (includes (toLowerCase q)
                                   (toLowerCase (itemToString props item)))
                         | None => TypeError
                         end)
                      filteredItemsByValue in
          Ok (Some [Set_filteredItems l])
      | NoSearch =>
          Ok (Some [Set_filteredItems filteredItemsByValue;
                    Set_filteredItemStrings
                      (map (λ filteredItem,
                              toLowerCase (itemToString props filteredItem))
                         filteredItemsByValue)])
      end
  end.

(** Modelled from the spec: the controlled/uncontrolled reconciliation
    facility ([AutoControlledComponent]: [trySetState] and the
    recomputation of derived state), which is not among the sources.  The
    spec has the engine call "try to change state X" and has every derived
    field recomputed synchronously whenever its inputs change.  The five
    auto-controlled fields are taken as managed internally, so
    [trySetState] queues the partial state as [setState] does, and [derive]
    merges what [getAutoControlledStateFromProps] returns once the queued
    updates are applied. *)
Definition setState (patch : list Assign) : Action := emit (SetState patch).
Definition trySetState (patch : list Assign) : Action := emit (SetState patch).

Definition derive (st : DropdownState) : result DropdownState :=
  let* upd := getAutoControlledStateFromProps st in
  Ok (match upd with
      | Some patch => merge st patch
      | None => st
      end).

Definition applyEffect (st : DropdownState) (e : Effect) : DropdownState :=
  match e with
  | SetState patch => merge st patch
  | _ => st
  end.

(** Running a handler from state [st]: the queued updates, in order, then
    the derived fields. *)
Definition exec (st : DropdownState) (a : Action) : result DropdownState :=
  let* effects := a in derive (foldl applyEffect st effects).

Definition trySetStateAndInvokeHandler (handlerName : HandlerName)
    (newState : list Assign) : Action :=
  trySetState newState ;; emit (Invoke handlerName newState).

Definition tryFocusTriggerButton : Action :=
  if negb (searchTruthy (search props)) then emit (Focus buttonRef) else skip.

Definition tryFocusSearchInput : Action :=
  if searchTruthy (search props) then emit (Focus inputRef) else skip.

Definition isValueEmpty (v : Value) : bool :=
  match v with
  | Multi vs => (length vs <? 1)%nat
  | Single (Some i) => negb (truthy i)
  | Single None => true
  end.

Definition getSelectedItemAsString (v : option Item) : option string :=
  if isValueEmpty (Single v) then placeholder props
  else if multiple props then Some ""
  else match v with
       | Some i => Some (itemToString props i)
       | None => placeholder props
       end.

Definition setA11ySelectionMessage (status : string) : Action :=
  emit (ClearTimeout a11yStatusTimeout) ;;
  setState [Set_a11ySelectionStatus status] ;;
  emit (SetTimeout a11yStatusTimeout a11yStatusCleanupTime).

Definition setStartingString (s : string) : Action :=
  emit (ClearTimeout charKeysPressedTimeout) ;;
  setState [Set_startingString s] ;;
  emit (SetTimeout charKeysPressedTimeout charKeyPressedCleanupTime).

(** The two timeouts firing. *)
Definition a11yStatusTimeoutFired : Action :=
  setState [Set_a11ySelectionStatus ""].
Definition charKeysPressedTimeoutFired : Action :=
  setState [Set_startingString ""].

Definition handleSearchQueryChange (st : DropdownState) (q : string)
    : Action :=
  trySetStateAndInvokeHandler onSearchQueryChange
    [Set_searchQuery (Some q);
     Set_highlightedIndex
       (if highlightFirstItemOnOpen props then Some 0%Z else None);
     Set_open (if decide (q = "") then false else open st)].

Definition getHighlightedIndexOnArrowKeyOpen (st : DropdownState)
    (changes : StateChangeOptions) : result (option Z) :=
  let isArrowUp := bool_decide (type changes = keyDownArrowUp) in
  let isArrowDown := bool_decide (type changes = keyDownArrowDown) in
  let* itemsLength :=
    match filteredItems st with
    | Some l => Ok (Z.of_nat (length l))
    | None => TypeError
    end in
  if numberTruthy (highlightedIndex st) then Ok (highlightedIndex st)
  else if highlightFirstItemOnOpen props then Ok (Some 0%Z)
  else if negb (multiple props) && negb (searchTruthy (search props))
          && valueTruthy (value st) then
    let offset := (if isArrowUp then -1 else if isArrowDown then 1 else 0)%Z in
    let* its := match items props with
                | Some its => Ok its
                | None => TypeError
                end in
    let newHighlightedIndex := (indexOfValue its (value st) + offset)%Z in
    if (newHighlightedIndex >=? itemsLength)%Z then Ok (Some 0%Z)
    else if (newHighlightedIndex <? 0)%Z then Ok (Some (itemsLength - 1)%Z)
    else Ok (Some newHighlightedIndex)
  else if isArrowDown then Ok (Some 0%Z)
  else if isArrowUp then Ok (Some (itemsLength - 1)%Z)
  else Ok None.

Definition handleStateChange (st : DropdownState)
    (changes : StateChangeOptions) : Action :=
  (match isOpen changes with
   | Some isOpen' =>
       if bool_decide (isOpen' ≠ open st) then
         if isOpen' then
           let* highlightedIndexOnArrowKeyOpen :=
             getHighlightedIndexOnArrowKeyOpen st changes in
           let newHighlightedIndex :=
             match highlightedIndexOnArrowKeyOpen with
             | Some n => Some n
             | None => highlightedIndex st
             end in
           (if negb (searchTruthy (search props)) then emit (Focus listRef)
            else skip) ;;
           trySetStateAndInvokeHandler onOpenChange
             [Set_open true; Set_highlightedIndex newHighlightedIndex]
         else
           trySetStateAndInvokeHandler onOpenChange
             [Set_open false; Set_highlightedIndex None]
       else skip
   | None => skip
   end) ;;
  (if open st && bool_decide (is_Some (changes_highlightedIndex changes)) then
     trySetState [Set_highlightedIndex (changes_highlightedIndex changes)] ;;
     setState [Set_itemIsFromKeyboard
                 (bool_decide (type changes ≠ itemMouseEnter))]
   else skip).

(** [selectItemAtIndex] and [toggleMenu] belong to the selection widget;
    what they do is a parameter here. *)
Definition handleTabSelection (st : DropdownState) (highlightedIndex : option Z)
    (selectItemAtIndex : Z → Action) (toggleMenu : Action) : Action :=
  if open st then
    match highlightedIndex with
    | Some hi =>
        let* len := match filteredItems st with
                    | Some l => Ok (length l)
                    | None => TypeError
                    end in
        if (0 <? len)%nat then
          selectItemAtIndex hi ;;
          (if negb (moveFocusOnTab props) && multiple props
           then emit PreventDefault else skip)
        else toggleMenu
    | None => toggleMenu
    end
  else skip.

(** [selectionStart] is the caret of the search input, [None] while
    [inputRef.current] is unset. *)
Definition trySetLastSelectedItemAsActive (st : DropdownState)
    (selectionStart : option Z) : Action :=
  if negb (multiple props)
     || match selectionStart with
        | Some s => negb (s =? 0)%Z
        | None => false
        end
  then skip
  else
    let* vs := asCollection (value st) in
    let last := (Z.of_nat (length vs) - 1)%Z in
    if (0 <? length vs)%nat then
      if bool_decide (activeSelectedIndex st = Some last) then
        trySetState [Set_activeSelectedIndex None] ;;
        trySetState [Set_activeSelectedIndex (Some last)]
      else trySetState [Set_activeSelectedIndex (Some last)]
    else skip.

(** [value.pop()] also shortens the array held by the state in place; the
    update that follows stores the same shortened array. *)
Definition removeItemFromValue (st : DropdownState) (item : option Item)
    : Action :=
  let* vs := asCollection (value st) in
  let '(poppedItem, vs') :=
    match item with
    | Some i =>
        if truthy i
        then (Some i, filter (λ currentElement, currentElement ≠ i) vs)
        else pop vs
    | None => pop vs
    end in
  (match getA11ySelectionMessage props with
   | Some m =>
       match onRemove m with
       | Some f => setA11ySelectionMessage (f poppedItem)
       | None => skip
       end
   | None => skip
   end) ;;
  trySetStateAndInvokeHandler onSelectedChange [Set_value (Multi vs')].

Definition tryRemoveItemFromValue (st : DropdownState)
    (selectionStart : option Z) : Action :=
  if multiple props then
    let* atStart :=
      if bool_decide (searchQuery st = Some "") then Ok true
      else match selectionStart with
           | Some s => Ok (s =? 0)%Z
           | None => TypeError
           end in
    if atStart then
      let* vs := asCollection (value st) in
      if (0 <? length vs)%nat then removeItemFromValue st None else skip
    else skip
  else skip.

Definition handleClear (st : DropdownState) : Action :=
  let initial := getInitialAutoControlledState in
  let cleared :=
    [Set_activeSelectedIndex (activeSelectedIndex initial);
     Set_highlightedIndex (highlightedIndex initial);
     Set_open (open initial);
     Set_searchQuery (searchQuery initial);
     Set_value (value initial)] in
  emit (Invoke onSelectedChange cleared) ;;
  trySetState cleared ;;
  tryFocusSearchInput ;;
  tryFocusTriggerButton.

Definition handleContainerClick : Action := tryFocusSearchInput.

Definition handleTriggerButtonKeyDown (st : DropdownState) (keyCode : Z)
    (rtl : bool) (selectionStart : option Z) : Action :=
  if (keyCode =? keyboardKey.ArrowLeft)%Z then
    if negb rtl then trySetLastSelectedItemAsActive st selectionStart
    else skip
  else if (keyCode =? keyboardKey.ArrowRight)%Z then
    if rtl then trySetLastSelectedItemAsActive st selectionStart else skip
  else skip.

Definition setHighlightedIndexOnCharKeyDown (st : DropdownState)
    (keyString : string) : Action :=
  let newStartingString :=
    String.append (template (startingString st)) (toLowerCase keyString) in
  let matches := λ item, startsWith item newStartingString in
  setStartingString newStartingString ;;
  let* newHighlightedIndex :=
    match highlightedIndex st with
    | Some hi =>
        let* old := match startingString st with
                    | Some s => Ok s
                    | None => TypeError
                    end in
        Ok (findIndex (filteredItemStrings st) matches
              (hi + (if (0 <? String.length old)%nat then 0 else 1))%Z)
    | None => Ok (-1)%Z
    end in
  let newHighlightedIndex :=
    if (newHighlightedIndex <? 0)%Z
    then findIndex (filteredItemStrings st) matches 0%Z
    else newHighlightedIndex in
  if (newHighlightedIndex >=? 0)%Z
  then setState [Set_highlightedIndex (Some newHighlightedIndex)]
  else skip.

(** [accessibilityInputPropsKeyDown], [toggleMenu] and [selectItemAtIndex]
    come from the selection widget and are parameters. *)
Definition handleListKeyDown (st : DropdownState) (keyCode : Z)
    (highlightedIndex : option Z) (accessibilityInputPropsKeyDown : Action)
    (toggleMenu : Action) (selectItemAtIndex : Z → Action) : Action :=
  if (keyCode =? keyboardKey.Tab)%Z then
    handleTabSelection st highlightedIndex selectItemAtIndex toggleMenu
  else if (keyCode =? keyboardKey.Escape)%Z then
    accessibilityInputPropsKeyDown ;;
    tryFocusTriggerButton ;;
    emit StopPropagation
  else
    (if isAlphanumericCode keyCode
     then setHighlightedIndexOnCharKeyDown st (fromCharCode keyCode)
     else skip) ;;
    accessibilityInputPropsKeyDown.

Definition handleSelectedChange (st : DropdownState) (item : Item) : Action :=
  let* newValue :=
    if multiple props then
      let* vs := asCollection (value st) in Ok (Multi (vs ++ [item]))
    else Ok (Single (Some item)) in
  trySetStateAndInvokeHandler onSelectedChange
    [Set_value newValue;
     Set_searchQuery (getSelectedItemAsString (Some item))] ;;
  (if negb (multiple props) then
     let* its := match items props with
                 | Some its => Ok its
                 | None => TypeError
                 end in
     setState [Set_highlightedIndex (Some (indexOf its item))]
   else skip) ;;
  (match getA11ySelectionMessage props with
   | Some m =>
       match onAdd m with
       | Some f => setA11ySelectionMessage (f item)
       | None => skip
       end
   | None => skip
   end) ;;
  (if multiple props then emit ScrollSelectedItemsToEnd else skip) ;;
  tryFocusTriggerButton.

Definition handleSelectedItemRemove (st : DropdownState) (item : Item)
    : Action :=
  trySetState [Set_activeSelectedIndex None] ;;
  removeItemFromValue st (Some item) ;;
  tryFocusSearchInput ;;
  tryFocusTriggerButton.

Definition handleSelectedItemKeyDown (st : DropdownState) (keyCode : Z)
    (item : Item) (rtl : bool) : Action :=
  let previousKey :=
    if rtl then keyboardKey.ArrowRight else keyboardKey.ArrowLeft in
  let nextKey :=
    if rtl then keyboardKey.ArrowLeft else keyboardKey.ArrowRight in
  if (keyCode =? keyboardKey.Delete)%Z || (keyCode =? keyboardKey.Backspace)%Z
  then handleSelectedItemRemove st item
  else
    let* vs := asCollection (value st) in
    let len := Z.of_nat (length vs) in
    if (keyCode =? previousKey)%Z then
      match activeSelectedIndex st with
      | Some a =>
          if (0 <? len)%Z && (0 <? a)%Z
          then trySetState [Set_activeSelectedIndex (Some (a - 1)%Z)]
          else skip
      | None => skip
      end
    else if (keyCode =? nextKey)%Z then
      match activeSelectedIndex st with
      | Some a =>
          if (0 <? len)%Z then
            if (a <? len - 1)%Z
            then trySetState [Set_activeSelectedIndex (Some (a + 1)%Z)]
            else
              trySetState [Set_activeSelectedIndex None] ;;
              (if searchTruthy (search props)
               then emit PreventDefault ;; emit (Focus inputRef)
               else emit (Focus buttonRef))
          else skip
      | None => skip
      end
    else skip.

(** The click handler of a selected item. *)
Definition handleSelectedItemClick (st : DropdownState) (item : Item)
    : Action :=
  let* vs := asCollection (value st) in
  trySetState [Set_activeSelectedIndex (Some (indexOf vs item))] ;;
  emit StopPropagation.

(** The key handler of the search input. *)
Definition handleInputKeyDown (st : DropdownState) (keyCode : Z) (rtl : bool)
    (highlightedIndex : option Z) (selectionStart : option Z)
    (selectItemAtIndex : Z → Action) (toggleMenu : Action) : Action :=
  if (keyCode =? keyboardKey.Tab)%Z then
    handleTabSelection st highlightedIndex selectItemAtIndex toggleMenu
  else if (keyCode =? keyboardKey.ArrowLeft)%Z then
    if negb rtl then trySetLastSelectedItemAsActive st selectionStart
    else skip
  else if (keyCode =? keyboardKey.ArrowRight)%Z then
    if rtl then trySetLastSelectedItemAsActive st selectionStart else skip
  else if (keyCode =? keyboardKey.Backspace)%Z then
    tryRemoveItemFromValue st selectionStart
  else skip.

(** [fromKeyboard] is what the external [isFromKeyboard()] answers. *)
Definition handleTriggerButtonOrListFocus (fromKeyboard : bool) : Action :=
  setState [Set_focused true; Set_isFromKeyboard fromKeyboard].

(** [toOther]: the focus did not move to the list (for the trigger) or to
    the trigger (for the list). *)
Definition handleBlur (toOther : bool) (fromKeyboard : bool) : Action :=
  if toOther then setState [Set_focused false; Set_isFromKeyboard fromKeyboard]
  else skip.

(** ** Operations and reachable states *)

Inductive Op : Type :=
| StateChange (changes : StateChangeOptions)
| SearchQueryChange (q : string)
| SelectedChange (item : Item)
| SelectedItemRemove (item : Item)
| SelectedItemKeyDown (keyCode : Z) (item : Item) (rtl : bool)
| SelectedItemClick (item : Item)
| InputKeyDown (keyCode : Z) (rtl : bool) (selectionStart : option Z)
| TriggerButtonKeyDown (keyCode : Z) (rtl : bool) (selectionStart : option Z)
| ListKeyDown (keyCode : Z)
| Clear
| FocusChange (gained toOther fromKeyboard : bool)
| A11yStatusTimeout
| CharKeysPressedTimeout.

(** The handler behind each operation.  A Tab or Escape key reaches the
    state through the widget's own notifications ([StateChange],
    [SelectedChange]), so the widget's callbacks do nothing here. *)
Definition handler (st : DropdownState) (op : Op) : Action :=
  match op with
  | StateChange changes => handleStateChange st changes
  | SearchQueryChange q => handleSearchQueryChange st q
  | SelectedChange item => handleSelectedChange st item
  | SelectedItemRemove item => handleSelectedItemRemove st item
  | SelectedItemKeyDown keyCode item rtl =>
      handleSelectedItemKeyDown st keyCode item rtl
  | SelectedItemClick item => handleSelectedItemClick st item
  | InputKeyDown keyCode rtl selectionStart =>
      handleInputKeyDown st keyCode rtl (highlightedIndex st) selectionStart
        (λ _, skip) skip
  | TriggerButtonKeyDown keyCode rtl selectionStart =>
      handleTriggerButtonKeyDown st keyCode rtl selectionStart
  | ListKeyDown keyCode =>
      handleListKeyDown st keyCode (highlightedIndex st) skip skip (λ _, skip)
  | Clear => handleClear st
  | FocusChange gained toOther fromKeyboard =>
      if gained then handleTriggerButtonOrListFocus fromKeyboard
      else handleBlur toOther fromKeyboard
  | A11yStatusTimeout => a11yStatusTimeoutFired
  | CharKeysPressedTimeout => charKeysPressedTimeoutFired
  end.

Definition step (st : DropdownState) (op : Op) : result DropdownState :=
  exec st (handler st op).

(** The states the component goes through, from its initial state. *)
Inductive Reachable : DropdownState → Prop :=
| Reachable_init st :
    derive getInitialAutoControlledState = Ok st → Reachable st
| Reachable_step st op st' :
    Reachable st → step st op = Ok st' → Reachable st'.

End Dropdown.

Arguments Reachable_init {props} st _.
Arguments Reachable_step {props} st op st' _ _.

(** Running a list of operations from the initial state. *)
Definition run (p : DropdownProps) (ops : list Op) : result DropdownState :=
  foldl (λ r op, let* st := r in step p st op)
    (derive p (getInitialAutoControlledState p)) ops.

(** ** Properties of states *)

(** No chip of a multiple selection is among the candidates. *)
Definition Exclusive (st : DropdownState) : Prop :=
  ∀ fi vs, filteredItems st = Some fi → value st = Multi vs →
    ∀ x, x ∈ vs → x ∉ fi.

(** A custom search function returns only candidates it was given. *)
Definition searchKeepsCandidates (p : DropdownProps) : Prop :=
  match search p with
  | CustomSearch f => ∀ l q x, x ∈ f l q → x ∈ l
  | _ => True
  end.

(** The highlighted index is "none" or an index of the candidate list. *)
Definition HighlightInBounds (st : DropdownState) : Prop :=
  match highlightedIndex st with
  | None => True
  | Some i =>
      match filteredItems st with
      | Some fi => (0 ≤ i < Z.of_nat (length fi))%Z
      | None => False
      end
  end.

(** The derived fields of [st] are up to date. *)
Definition Consistent (p : DropdownProps) (st : DropdownState) : Prop :=
  derive p st = Ok st.

(** ** Type-ahead as the specification words it *)

(** The first entry at or after position [from] that starts with [buffer]. *)
Definition firstMatchFrom (strs : list string) (buffer : string) (from : Z)
    : option Z :=
  match list_find (λ s, startsWith s buffer = true) (drop (Z.to_nat from) strs)
  with
  | Some (i, _) => Some (from + Z.of_nat i)%Z
  | None => None
  end.

(** A scan from [start], then from 0, and the old highlight when nothing
    matches. *)
Definition scanWithWrap (strs : list string) (buffer : string) (start : Z)
    (old : option Z) : option Z :=
  match firstMatchFrom strs buffer start with
  | Some i => Some i
  | None =>
      match firstMatchFrom strs buffer 0 with
      | Some i => Some i
      | None => old
      end
  end.

(** The scan as worded: just after the highlighted index, or from 0 when
    nothing is highlighted or the buffer was just started. *)
Definition typeAheadAsWorded (strs : list string) (buffer : string)
    (hi : option Z) (key : string) : option Z :=
  let start :=
    match hi with
    | Some h => if decide (buffer = "") then 0%Z else (h + 1)%Z
    | None => 0%Z
    end in
  scanWithWrap strs (String.append buffer (toLowerCase key)) start hi.

(** The scan of the code: at the highlighted index when the buffer already
    holds characters, just after it when the buffer was just started, from 0
    when nothing is highlighted. *)
Definition typeAheadStart (buffer : string) (hi : option Z) : Z :=
  match hi with
  | Some h => if decide (buffer = "") then (h + 1)%Z else h
  | None => 0%Z
  end.

Definition typeAheadAmended (strs : list string) (buffer : string)
    (hi : option Z) (key : string) : option Z :=
  scanWithWrap strs (String.append buffer (toLowerCase key))
    (typeAheadStart buffer hi) hi.

(** The wrap-around of an index against [n] candidates. *)
Definition wrapIndex (i n : Z) : Z :=
  if (i >=? n)%Z then 0%Z else if (i <? 0)%Z then (n - 1)%Z else i.

(** The offset of an opening: up-arrow, down-arrow, anything else. *)
Definition openOffset (t : StateChangeType) : Z :=
  match t with
  | keyDownArrowUp => (-1)%Z
  | keyDownArrowDown => 1%Z
  | _ => 0%Z
  end.

(** ** Scenarios *)

Definition baseProps : DropdownProps :=
  {| items := None;
     itemToString := λ i, defaultItemToString (Some i);
     multiple := false;
     search := NoSearch;
     highlightFirstItemOnOpen := false;
     moveFocusOnTab := false;
     placeholder := None;
     getA11ySelectionMessage := None |}.

Definition withItems (its : list Item) (m : bool) (s : Search)
    : DropdownProps :=
  {| items := Some its;
     itemToString := itemToString baseProps;
     multiple := m;
     search := s;
     highlightFirstItemOnOpen := false;
     moveFocusOnTab := false;
     placeholder := None;
     getA11ySelectionMessage := None |}.

Definition fruit : list Item := [Str "Apple"; Str "Banana"; Str "Cherry"].
Definition xyz : list Item := [Str "X"; Str "Y"; Str "Z"].

Definition opening (t : StateChangeType) : StateChangeOptions :=
  {| type := t; isOpen := Some true; changes_highlightedIndex := None |}.
Definition closing : StateChangeOptions :=
  {| type := otherChange; isOpen := Some false;
     changes_highlightedIndex := None |}.

(** A state given by the fields the scenarios vary. *)
Definition stateWith (p : DropdownProps) (o : bool) (hi : option Z)
    (v : Value) (fi : list Item) (strs : option (list string))
    (buffer : option string) : DropdownState :=
  {| a11ySelectionStatus := "";
     activeSelectedIndex := None;
     filteredItems := Some fi;
     filteredItemStrings := strs;
     focused := true;
     startingString := buffer;
     open := o;
     searchQuery := searchQuery (getInitialAutoControlledState p);
     highlightedIndex := hi;
     value := v;
     itemIsFromKeyboard := false;
     isFromKeyboard := false |}.

(** A custom search function that offers "X" whatever it is given. *)
Definition alwaysX : Search := CustomSearch (λ _ _, [Str "X"]).
Definition isDerived (a : Assign) : bool :=
  match a with
  | Set_filteredItems _ | Set_filteredItemStrings _ => true
  | _ => false
  end.

Definition leavesDerived (e : Effect) : bool :=
  match e with
  | SetState patch => forallb (λ a, negb (isDerived a)) patch
  | _ => true
  end.


Definition notifications (effs : list Effect)
    : list (HandlerName * list Assign) :=
  omap (λ e, match e with
             | Invoke h data => Some (h, data)
             | _ => None
             end) effs.

(** ** Further definitions for the properties of the dropdown *)

(** The local [filteredItemsByValue] of [getAutoControlledStateFromProps]:
    the items left once the chips of a multiple selection are taken out. *)
Definition filteredItemsByValue (p : DropdownProps) (its : list Item)
    (v : Value) : list Item :=
  if multiple p then
    match v with
    | Multi vs => difference its vs
    | Single _ => its
    end
  else its.

(** The test of the built-in search on one item. *)
Definition matchesQuery (p : DropdownProps) (q : string) (item : Item) : bool :=
  includes (toLowerCase q) (toLowerCase (itemToString p item)).

(** A dropdown that announces selections and removals. *)
Definition announcing (m : bool) (s : Search) : DropdownProps :=
  {| items := Some xyz;
     itemToString := itemToString baseProps;
     multiple := m;
     search := s;
     highlightFirstItemOnOpen := false;
     moveFocusOnTab := false;
     placeholder := None;
     getA11ySelectionMessage :=
       Some {| onAdd := Some (λ i, String.append (String_of i) " added");
               onRemove := None |} |}.

(** * Dialog

    The open state of the [Dialog] component (src/unnamed/part_002).  Its
    handlers notify the caller and then try to set [open]; as for the
    dropdown, [open] is taken as managed internally.  The ids of the
    content and of the header, which no handler touches, are left out of
    the state. *)

Module Dialog.

Inductive HandlerName : Type :=
| onCancel
| onConfirm
| onOpen.

Inductive Effect : Type :=
| Invoke (h : HandlerName) (open : bool)
| InvokePredefinedOnClick
| SetState (open : bool)
| StopPropagation
| FocusTrigger.

Record DialogState : Type := {
  open : bool;
}.

Definition getInitialAutoControlledState : DialogState := {| open := false |}.

Definition trySetState (o : bool) : list Effect := [SetState o].

Definition handleDialogCancel : list Effect :=
  [Invoke onCancel false] ++ trySetState false.

Definition handleDialogConfirm : list Effect :=
  [Invoke onConfirm false] ++ trySetState false.

Definition handleDialogOpen : list Effect :=
  [Invoke onOpen true] ++ trySetState true.

(** [actionHandlers.closeAndFocusTrigger] and [actionHandlers.close] *)
Definition closeAndFocusTrigger : list Effect :=
  handleDialogCancel ++ [StopPropagation; FocusTrigger].
Definition close : list Effect := handleDialogCancel.

(** The [onClick] installed by [handleCancelButtonOverrides]. *)
Definition cancelButtonClick : list Effect :=
  [InvokePredefinedOnClick] ++ handleDialogCancel.

(** The [onClick] installed by [handleConfirmButtonOverrides]. *)
Definition confirmButtonClick : list Effect :=
  [InvokePredefinedOnClick] ++ handleDialogConfirm.

(** The [onClick] installed by [handleOverlayOverrides];
    [containsClick] is what [doesNodeContainClick(contentRef.current, e)]
    answers. *)
Definition overlayClick (containsClick : bool) : list Effect :=
  [InvokePredefinedOnClick] ++
  (if negb containsClick then handleDialogCancel else []).

(** What the user and the key bindings can do to a dialog. *)
Inductive Event : Type :=
| TriggerClick
| CancelButtonClick
| ConfirmButtonClick
| OverlayClick (containsClick : bool)
| CloseAndFocusTrigger
| Close.

Definition handler (e : Event) : list Effect :=
  match e with
  | TriggerClick => handleDialogOpen
  | CancelButtonClick => cancelButtonClick
  | ConfirmButtonClick => confirmButtonClick
  | OverlayClick containsClick => overlayClick containsClick
  | CloseAndFocusTrigger => closeAndFocusTrigger
  | Close => close
  end.

Definition applyEffect (st : DialogState) (e : Effect) : DialogState :=
  match e with
  | SetState o => {| open := o |}
  | _ => st
  end.

Definition step (st : DialogState) (e : Event) : DialogState :=
  foldl applyEffect st (handler e).

Definition run (es : list Event) : DialogState :=
  foldl step getInitialAutoControlledState es.

(** The notifications to the caller in a trace. *)
Definition notifications (effs : list Effect) : list (HandlerName * bool) :=
  omap (λ e, match e with Invoke h o => Some (h, o) | _ => None end) effs.

(** A click on the overlay that lands inside the dialog content. *)
Definition isInsideClick (e : Event) : bool :=
  match e with
  | OverlayClick true => true
  | _ => false
  end.

End Dialog.

(** * Chat items

    The generation of chat items of the chat pane prototype
    (src/unnamed/part_000).  [Date], [areSameDay] and
    [getFriendlyDateString] come from a module that is not among the
    sources and are parameters; so do the types [UserData], [MessageData]
    and [ChatData], whose records hold the fields that the functions of
    this file read.  [members] is a [Map] from sender to user; [mine] of a
    message is read for its truthiness only. *)

Module Chat.

Record UserData : Type := {
  firstName : string;
  lastName : string;
  avatar : string;
  status : string;
}.

Record StatusProps : Type := {
  color : string;
  icon : option string;
  title : string;
}.

Definition statusMap : gmap string StatusProps :=
  list_to_map
    [("Available",
      {| color := "green"; icon := Some "check"; title := "Available" |});
     ("DoNotDisturb",
      {| color := "red"; icon := Some "minus"; title := "Do not disturb" |});
     ("Away",
      {| color := "yellow"; icon := Some "clock"; title := "Away" |});
     ("Offline", {| color := "grey"; icon := None; title := "Offline" |})].

Inductive ChatItemTypes : Type :=
| message
| divider.

Record Timestamp : Type := {
  timestamp_content : string;
  timestamp_title : string;
  timestamp_id : string;
  timestamp_aria_label : string;
}.

Record Author : Type := {
  author_content : string;
  author_id : string;
}.

(** The content of a message: the text, or the markup built by
    [createMessageContentWithAttachments] from the text and the id. *)
Inductive ContentBody : Type :=
| Plain (text : string)
| WithAttachments (text : string) (messageId : string).

Record MessageContent : Type := {
  content_id : option string;
  content_body : ContentBody;
}.

Record ChatMessage : Type := {
  aria_labelledby : string;
  content : MessageContent;
  message_mine : bool;
  tabIndex : Z;
  timestamp : Timestamp;
  author : option Author;
  message_itemType : ChatItemTypes;
  text : string;
}.

Record Divider : Type := {
  divider_itemType : ChatItemTypes;
  divider_content : string;
  important : option bool;
  divider_color : string;
}.

Inductive MessageOrDivider : Type :=
| IsMessage (m : ChatMessage)
| IsDivider (d : Divider).

Record Gutter : Type := {
  image : string;
  gutter_status : option StatusProps;
}.

(** [gutter] is [None] for the source's [false]; [mine] is [None] where the
    source leaves it out. *)
Record ChatItem : Type := {
  item_message : option MessageOrDivider;
  gutter : option Gutter;
  mine : option bool;
}.

Section Generate.

Variable Date : Type.
Variable areSameDay : Date → Date → bool.
Variable getFriendlyDateString : Date → string.

Record MessageData : Type := {
  id : string;
  from : string;
  data_content : string;
  data_mine : bool;
  date : Date;
  data_timestamp : string;
  timestampLong : string;
  withAttachment : bool;
}.

Record ChatData : Type := {
  members : option (gmap string UserData);
  messages : option (list MessageData);
}.

Definition createMessageContent (m : MessageData) : MessageContent :=
  let messageId := String.append "content-" (id m) in
  {| content_id := if withAttachment m then None else Some messageId;
     content_body :=
       if withAttachment m then WithAttachments (data_content m) messageId
       else Plain (data_content m) |}.

Definition generateChatMsgProps (m : MessageData) (fromUser : option UserData)
    : result ChatItem :=
  let messageProps :=
    {| aria_labelledby :=
         String.append "sender-"
           (String.append (id m)
              (String.append " timestamp-"
                 (String.append (id m)
                    (String.append " content-" (id m)))));
       content := createMessageContent m;
       message_mine := data_mine m;
       tabIndex := 0;
       timestamp :=
         {| timestamp_content := data_timestamp m;
            timestamp_title := timestampLong m;
            timestamp_id := String.append "timestamp-" (id m);
            timestamp_aria_label := timestampLong m |};
       author :=
         match fromUser with
         | Some u =>
             Some {| author_content :=
                       String.append (firstName u)
                         (String.append " "
                            (String.append (lastName u) " "));
                     author_id := String.append "sender-" (id m) |}
         | None => None
         end;
       message_itemType := message;
       text := data_content m |} in
  let* g :=
    if negb (data_mine m) then
      match fromUser with
      | Some u =>
          Ok (Some {| image := avatar u;
                      gutter_status := statusMap !! status u |})
      | None => TypeError
      end
    else Ok None in
  Ok {| item_message := Some (IsMessage messageProps);
        gutter := g;
        mine := Some (data_mine m) |}.

(** [color] defaults to ['secondary']. *)
Definition generateDividerProps (content : string) (important : option bool)
    (color : option string) : ChatItem :=
  {| item_message :=
       Some (IsDivider
               {| divider_itemType := divider;
                  divider_content := content;
                  important := important;
                  divider_color := default "secondary" color |});
     gutter := None;
     mine := None |}.

(** The loop over adjacent messages and the push of the last message. *)
Fixpoint messageItems (members : gmap string UserData) (msg1 : MessageData)
    (rest : list MessageData) : result (list ChatItem) :=
  let* item := generateChatMsgProps msg1 (members !! from msg1) in
  match rest with
  | [] => Ok [item]
  | msg2 :: rest' =>
      let* items := messageItems members msg2 rest' in
      Ok (item ::
          (if negb (areSameDay (date msg1) (date msg2))
           then [generateDividerProps (getFriendlyDateString (date msg2))
                   None None]
           else []) ++ items)
  end.

(** [_.findLastIndex(array, predicate)] *)
Fixpoint findLastIndex {A} (predicate : A → bool) (l : list A) : Z :=
  match l with
  | [] => (-1)%Z
  | x :: l' =>
      let r := findLastIndex predicate l' in
      if (r >=? 0)%Z then (r + 1)%Z
      else if predicate x then 0%Z else (-1)%Z
  end.

(** [array.splice(start, 0, x)] for [0 <= start <= array.length] *)
Definition splice {A} (l : list A) (start : Z) (x : A) : list A :=
  take (Z.to_nat start) l ++ x :: drop (Z.to_nat start) l.

(** Truthiness of [item.mine] *)
Definition isMine (item : ChatItem) : bool :=
  match mine item with
  | Some b => b
  | None => false
  end.

Definition lastReadDivider : ChatItem :=
  generateDividerProps "Last read" (Some true) (Some "brand").

Definition generateChatProps (chat : option ChatData)
    : result (list ChatItem) :=
  match chat with
  | None => Ok []
  | Some c =>
      match members c, messages c with
      | Some members, Some messages =>
          match messages with
          | [] => TypeError
          | first :: rest =>
              let* items := messageItems members first rest in
              let chatProps :=
                generateDividerProps (getFriendlyDateString (date first))
                  None None :: items in
              let myLastMsgIndex := findLastIndex isMine chatProps in
              if (myLastMsgIndex <? Z.of_nat (length chatProps) - 1)%Z
              then Ok (splice chatProps (myLastMsgIndex + 1) lastReadDivider)
              else Ok chatProps
          end
      | _, _ => Ok []
      end
  end.

(** A message whose item cannot be built: it is not mine and its sender is
    not a member. *)
Definition unknownSender (members : gmap string UserData) (m : MessageData)
    : Prop :=
  data_mine m = false ∧ members !! from m = None.

(** The texts of the message items of a list of chat items. *)
Definition messageTexts (l : list ChatItem) : list string :=
  omap (λ item, match item_message item with
                | Some (IsMessage m) => Some (text m)
                | _ => None
                end) l.

(** The contents of the dividers of a list of chat items. *)
Definition dividerContents (l : list ChatItem) : list string :=
  omap (λ item, match item_message item with
                | Some (IsDivider d) => Some (divider_content d)
                | _ => None
                end) l.

(** The number of adjacent messages that are not of the same day. *)
Fixpoint dayChanges (msg1 : MessageData) (rest : list MessageData) : nat :=
  match rest with
  | [] => 0
  | msg2 :: rest' =>
      (if areSameDay (date msg1) (date msg2) then 0 else 1)
      + dayChanges msg2 rest'
  end.

End Generate.

(** A scenario: days are numbers; Ann is the only member. *)
Definition ann : UserData :=
  {| firstName := "Ann"; lastName := "Lee"; avatar := "ann.png";
     status := "Away" |}.

Definition sampleMembers : gmap string UserData := {[ "ann" := ann ]}.

Definition sampleMessage (i sender text : string) (m : bool) (day : nat)
    : MessageData nat :=
  {| id := i; from := sender; data_content := text; data_mine := m;
     date := day; data_timestamp := "10:00"; timestampLong := "10:00 AM";
     withAttachment := false |}.

Definition sampleChat (msgs : list (MessageData nat)) : option (ChatData nat) :=
  Some {| members := Some sampleMembers; messages := Some msgs |}.

Definition sampleDay (day : nat) : string :=
  if (day =? 0)%nat then "Today" else "Earlier".

End Chat.

(** * Verification *)

(** ** Basic facts about effects and derived state *)

Lemma filterR_elem_of {A} (f : A → result bool) (l r : list A) :
  filterR f l = Ok r → ∀ x, x ∈ r → x ∈ l.
Proof.
  revert r. induction l as [|a l IH]; simpl; intros r Hr x Hx.
  - inversion Hr; subst. exact Hx.
  - destruct (f a) as [b|]; simpl in Hr; [|discriminate].
    destruct (filterR f l) as [r'|]; simpl in Hr; [|discriminate].
    inversion Hr; subst; clear Hr.
    destruct b.
    + apply elem_of_cons in Hx as [->|Hx]; [left|right; eauto].
    + right; eauto.
Qed.

Lemma filterR_total {A} (f : A → result bool) (l : list A) :
  (∀ x, x ∈ l → ∃ b, f x = Ok b) → ∃ r, filterR f l = Ok r.
Proof.
  induction l as [|a l IH]; simpl; intros Hf; [eauto|].
  destruct (Hf a) as [b ->]; [left|]. simpl.
  destruct IH as [r ->]; [intros; apply Hf; by right|]. simpl. eauto.
Qed.

(** [derive] touches the two derived fields only. *)
Lemma derive_fields p s st :
  derive p s = Ok st →
  value st = value s ∧ searchQuery st = searchQuery s ∧ open st = open s ∧
  highlightedIndex st = highlightedIndex s ∧
  activeSelectedIndex st = activeSelectedIndex s ∧
  startingString st = startingString s ∧
  a11ySelectionStatus st = a11ySelectionStatus s.
Proof.
  unfold derive, getAutoControlledStateFromProps. intros H.
  destruct (items p) as [its|]; simpl in H.
  - destruct (search p); simpl in H.
    + inversion H; subst. by destruct s.
    + destruct (filterR _ _); simpl in H; [|discriminate].
      inversion H; subst. by destruct s.
    + inversion H; subst. by destruct s.
  - inversion H; subst. tauto.
Qed.

(** The candidates computed by [derive] avoid the chips, as long as the
    search function adds nothing. *)
Lemma derive_Exclusive p s st :
  multiple p = true → searchKeepsCandidates p →
  (items p = None → filteredItems s = None) →
  derive p s = Ok st → Exclusive st.
Proof.
  intros Hm Hk Hnone H fi vs Hfi Hv x Hx Hin.
  pose proof (derive_fields _ _ _ H) as (Hval & _).
  rewrite Hv in Hval.
  unfold derive, getAutoControlledStateFromProps in H.
  unfold searchKeepsCandidates in Hk.
  rewrite Hm in H.
  destruct (items p) as [its|]; simpl in H.
  - rewrite <- Hval in H.
    assert (Hd : x ∈ difference its vs → False).
    { unfold difference. rewrite list_elem_of_difference. tauto. }
    destruct (search p) as [| |f]; simpl in H.
    + inversion H; subst; clear H. destruct s; simpl in *.
      inversion Hfi; subst. auto.
    + destruct (filterR _ _) as [l|] eqn:Hl; simpl in H; [|discriminate].
      inversion H; subst; clear H. destruct s; simpl in *.
      inversion Hfi; subst. eauto using filterR_elem_of.
    + inversion H; subst; clear H. destruct s; simpl in *.
      inversion Hfi; subst. eauto.
  - inversion H; subst. rewrite Hnone in Hfi; [discriminate|done].
Qed.


Lemma handler_leavesDerived p st op effs :
  handler p st op = Ok effs → forallb leavesDerived effs = true.
Proof.
  destruct op; simpl; intros H.
  all: unfold handleStateChange, handleSearchQueryChange,
    handleSelectedChange, handleSelectedItemKeyDown,
    handleSelectedItemRemove, handleSelectedItemClick, handleInputKeyDown,
    handleTriggerButtonKeyDown, handleListKeyDown, handleClear,
    handleTriggerButtonOrListFocus, handleBlur, a11yStatusTimeoutFired,
    charKeysPressedTimeoutFired, handleTabSelection,
    trySetLastSelectedItemAsActive, tryRemoveItemFromValue,
    removeItemFromValue, setHighlightedIndexOnCharKeyDown,
    trySetStateAndInvokeHandler, tryFocusSearchInput, tryFocusTriggerButton,
    setA11ySelectionMessage, setStartingString, trySetState, setState, emit,
    skip, andThen, rbind in H.
  all: repeat case_match; simplify_eq; try reflexivity.
Qed.

Lemma merge_leavesDerived patch s :
  forallb (λ a, negb (isDerived a)) patch = true →
  filteredItems (merge s patch) = filteredItems s ∧
  filteredItemStrings (merge s patch) = filteredItemStrings s.
Proof.
  unfold merge. revert s.
  induction patch as [|a patch IH]; intros s H; simpl in *; [done|].
  apply andb_true_iff in H as [Ha H].
  destruct (IH (assign s a) H) as [-> ->].
  destruct a, s; simpl in *; done.
Qed.

Lemma foldl_leavesDerived effs s :
  forallb leavesDerived effs = true →
  filteredItems (foldl applyEffect s effs) = filteredItems s ∧
  filteredItemStrings (foldl applyEffect s effs) = filteredItemStrings s.
Proof.
  revert s. induction effs as [|e effs IH]; intros s H; simpl in *; [done|].
  apply andb_true_iff in H as [He H].
  destruct (IH (applyEffect s e) H) as [-> ->].
  destruct e; simpl in *; try done.
  by apply merge_leavesDerived.
Qed.

(** Without items the candidate list is never set. *)
Lemma Reachable_no_items p st :
  items p = None → Reachable p st → filteredItems st = None.
Proof.
  intros Hi HR.
  assert (Hd : ∀ s t,
            derive p s = Ok t → filteredItems t = filteredItems s).
  { intros s t. unfold derive, getAutoControlledStateFromProps.
    rewrite Hi. simpl. by intros [= ->]. }
  induction HR as [st H|st op st' HR IH Hstep].
  - by rewrite (Hd _ _ H).
  - unfold step, exec in Hstep.
    destruct (handler p st op) as [effs|] eqn:Hh; simpl in Hstep;
      [|discriminate].
    rewrite (Hd _ _ Hstep).
    apply handler_leavesDerived in Hh.
    by destruct (foldl_leavesDerived effs st Hh) as [-> _].
Qed.

(** Every reachable state has its derived fields up to date. *)
Lemma derive_idempotent p s st : derive p s = Ok st → derive p st = Ok st.
Proof.
  intros H. pose proof (derive_fields _ _ _ H) as (Hv & Hq & _).
  revert H. unfold derive, getAutoControlledStateFromProps.
  rewrite Hv, Hq.
  destruct (items p) as [its|]; simpl; [|by intros [= ->]].
  destruct (search p); simpl.
  - intros [= <-]. f_equal. by destruct s.
  - destruct (filterR _ _); simpl; [|discriminate].
    intros [= <-]. f_equal. by destruct s.
  - intros [= <-]. f_equal. by destruct s.
Qed.

Lemma Reachable_Consistent p st : Reachable p st → Consistent p st.
Proof.
  unfold Consistent.
  destruct 1 as [st H|st op st' _ H]; [by eapply derive_idempotent|].
  unfold step, exec in H.
  destruct (handler p st op); simpl in H; [|discriminate].
  by eapply derive_idempotent.
Qed.

Lemma run_Reachable p ops st : run p ops = Ok st → Reachable p st.
Proof.
  unfold run. revert st.
  induction ops as [|op ops IH] using rev_ind; intros st; simpl.
  - apply Reachable_init.
  - rewrite foldl_app. simpl.
    destruct (foldl _ _ ops) as [s|]; simpl; [|discriminate].
    intros H. eapply Reachable_step; eauto.
Qed.

(** C1 (amended): in multiple mode, in every reachable state, no item of
    [value] is among [filteredItems], whatever the items and the search
    query, provided that a custom search function, when one is configured,
    returns only items of the candidate list it is given. *)
Theorem exclusivity_of_candidates p st :
  multiple p = true → searchKeepsCandidates p → Reachable p st →
  Exclusive st.
Proof.
  intros Hm Hk HR.
  destruct HR as [st H|st op st' HR H].
  - by apply (derive_Exclusive p (getInitialAutoControlledState p)).
  - unfold step, exec in H.
    destruct (handler p st op) as [effs|] eqn:Hh; simpl in H;
      [|discriminate].
    apply (derive_Exclusive p (foldl applyEffect st effs)); try done.
    intros Hi. apply handler_leavesDerived in Hh.
    destruct (foldl_leavesDerived effs st Hh) as [-> _].
    by apply Reachable_no_items with p.
Qed.

Lemma exclusivity_of_candidates_witness :
  Exclusive
    (stateWith (withItems xyz true BuiltinSearch) false None (Multi [Str "X"])
       [Str "Y"; Str "Z"] None None).
Proof.
  apply (exclusivity_of_candidates (withItems xyz true BuiltinSearch)).
  - reflexivity.
  - exact I.
  - apply (run_Reachable _
             [SelectedChange (Str "X"); FocusChange true true false]).
    vm_compute. reflexivity.
Defined.

(** C1, as stated, fails with a custom search function: after "X" is picked
    the function still offers it. *)
Lemma exclusivity_fails_with_custom_search :
  ∃ st, Reachable (withItems xyz true alwaysX) st ∧
        multiple (withItems xyz true alwaysX) = true ∧ ¬ Exclusive st.
Proof.
  destruct (run (withItems xyz true alwaysX) [SelectedChange (Str "X")])
    as [st|] eqn:Hrun; [|vm_compute in Hrun; discriminate].
  exists st. split; [by eapply run_Reachable|]. split; [reflexivity|].
  vm_compute in Hrun. inversion Hrun; subst; clear Hrun.
  intros HE. apply (HE [Str "X"] [Str "X"] eq_refl eq_refl (Str "X")); left.
Qed.

(** ** Handlers that leave the inputs of the derived fields alone *)

Lemma derive_same p st s' :
  Consistent p st →
  value s' = value st → searchQuery s' = searchQuery st →
  filteredItems s' = filteredItems st →
  filteredItemStrings s' = filteredItemStrings st →
  derive p s' = Ok s'.
Proof.
  unfold Consistent, derive, getAutoControlledStateFromProps.
  intros H Hv Hq Hf Hs. rewrite Hv, Hq.
  destruct (items p) as [its|]; simpl in *; [|done].
  destruct (search p); simpl in *.
  - injection H as H. f_equal.
    destruct st, s'; simpl in *; subst. congruence.
  - destruct (filterR _ _); simpl in *; [|discriminate].
    injection H as H. f_equal.
    destruct st, s'; simpl in *; subst. congruence.
  - injection H as H. f_equal.
    destruct st, s'; simpl in *; subst. congruence.
Qed.

(** [derive] succeeds whenever the built-in search has a query to read. *)
Lemma derive_total p s :
  (search p = BuiltinSearch → is_Some (searchQuery s)) →
  ∃ t, derive p s = Ok t.
Proof.
  intros Hq. unfold derive, getAutoControlledStateFromProps.
  destruct (items p) as [its|]; simpl; [|eauto].
  destruct (search p); simpl; eauto.
  destruct Hq as [q ->]; [done|].
  edestruct (filterR_total
    (λ item : Item,
       Ok (includes (toLowerCase q) (toLowerCase (itemToString p item)))))
    as [r ->]; simpl; eauto.
Qed.

(** ** Opening the panel *)

(** What an opening notification does to a closed panel. *)
Lemma handleStateChange_opening p st changes h :
  Consistent p st → open st = false → isOpen changes = Some true →
  getHighlightedIndexOnArrowKeyOpen p st changes = Ok h →
  ∃ st', step p st (StateChange changes) = Ok st' ∧ open st' = true ∧
         highlightedIndex st' =
           match h with Some n => Some n | None => highlightedIndex st end ∧
         filteredItems st' = filteredItems st ∧ value st' = value st.
Proof.
  intros HC Ho Hi Hh. unfold step, exec. simpl.
  unfold handleStateChange. rewrite Hi, Ho, Hh. simpl.
  destruct (negb (searchTruthy (search p))); simpl.
  all: eexists; split; [apply (derive_same p st); try done; by destruct st|].
  all: by destruct st.
Qed.

(** The index computed for an opening stays within a non-empty candidate
    list when the pending index does. *)
Lemma openIndex_in_bounds p st changes fi :
  is_Some (items p) → filteredItems st = Some fi → fi ≠ [] →
  HighlightInBounds st →
  ∃ h, getHighlightedIndexOnArrowKeyOpen p st changes = Ok h ∧
       match h with
       | Some n => (0 ≤ n < Z.of_nat (length fi))%Z
       | None => True
       end.
Proof.
  intros [its Hits] Hfi Hne Hb.
  assert (Hlen : (0 < Z.of_nat (length fi))%Z)
    by (destruct fi; simpl; [done|lia]).
  unfold getHighlightedIndexOnArrowKeyOpen, HighlightInBounds in *.
  rewrite Hfi in *. rewrite Hits. simpl.
  destruct (numberTruthy (highlightedIndex st)) eqn:Ht.
  { eexists; split; [done|]. by destruct (highlightedIndex st). }
  destruct (highlightFirstItemOnOpen p); [eexists; split; [done|simpl; lia]|].
  destruct (negb (multiple p) && negb (searchTruthy (search p))
            && valueTruthy (value st)); simpl.
  - repeat case_match; eexists; (split; [done|]); simpl; lia.
  - repeat case_match; eexists; (split; [done|]); simpl; try lia; done.
Qed.

(** C2 (amended): on an open transition of a reachable closed state whose
    candidate list is not empty and whose pending highlight is "none" or
    within range, the panel opens and the new highlighted index is "none" or
    satisfies 0 ≤ HighlightedIndex < FilteredItems.length, for every open
    reason. *)
Theorem open_highlight_within_candidates p st changes fi :
  Reachable p st → open st = false → isOpen changes = Some true →
  filteredItems st = Some fi → fi ≠ [] → HighlightInBounds st →
  ∃ st', step p st (StateChange changes) = Ok st' ∧ open st' = true ∧
         HighlightInBounds st'.
Proof.
  intros HR Ho Hi Hfi Hne Hb.
  assert (Hits : is_Some (items p)).
  { destruct (items p) eqn:E; [done|].
    rewrite (Reachable_no_items p st E HR) in Hfi. discriminate. }
  destruct (openIndex_in_bounds p st changes fi Hits Hfi Hne Hb)
    as (h & Hh & Hr).
  destruct (handleStateChange_opening p st changes h
              (Reachable_Consistent _ _ HR) Ho Hi Hh)
    as (st' & Hs & Ho' & Hh' & Hf' & _).
  exists st'. split; [done|]. split; [done|].
  unfold HighlightInBounds in *. rewrite Hh', Hf', Hfi.
  destruct h; [done|]. by rewrite Hfi in Hb.
Qed.

Lemma open_highlight_within_candidates_witness :
  ∃ st', step (withItems fruit false NoSearch)
           (stateWith (withItems fruit false NoSearch) false None (Single None)
              fruit (Some ["apple"; "banana"; "cherry"]) (Some ""))
           (StateChange (opening keyDownArrowUp)) = Ok st' ∧
         open st' = true ∧ HighlightInBounds st'.
Proof.
  apply (open_highlight_within_candidates _ _ _ fruit).
  - apply (run_Reachable _ [FocusChange true true false]).
    vm_compute. reflexivity.
  - reflexivity.
  - reflexivity.
  - reflexivity.
  - discriminate.
  - exact I.
Defined.

(** C2, as stated, fails on an empty candidate list: a down-arrow opening
    yields index 0, which is out of range. *)
Lemma open_on_empty_list_out_of_bounds :
  getHighlightedIndexOnArrowKeyOpen (withItems [] true NoSearch)
    (stateWith (withItems [] true NoSearch) false None (Multi []) [] (Some [])
       (Some ""))
    (opening keyDownArrowDown) = Ok (Some 0%Z) ∧
  ∃ st, Reachable (withItems [] true NoSearch) st ∧ open st = true ∧
        filteredItems st = Some [] ∧ ¬ HighlightInBounds st.
Proof.
  split; [reflexivity|].
  destruct (run (withItems [] true NoSearch)
              [StateChange (opening keyDownArrowDown)])
    as [st|] eqn:Hrun; [|vm_compute in Hrun; discriminate].
  exists st. split; [by eapply run_Reachable|].
  vm_compute in Hrun. inversion Hrun; subst; clear Hrun.
  repeat split. unfold HighlightInBounds. simpl. lia.
Qed.


(** C3: the code at the failing input.  "Apple" (index 0) is selected, which
    leaves 0 as the pending index of the closed panel; an up-arrow opening
    then highlights index 2, where a pending index 2 would have been kept. *)
Theorem pending_index_zero_not_kept :
  ∃ st st', run (withItems fruit false NoSearch)
              [SelectedChange (Str "Apple")] = Ok st ∧
            open st = false ∧ highlightedIndex st = Some 0%Z ∧
            step (withItems fruit false NoSearch) st
              (StateChange (opening keyDownArrowUp)) = Ok st' ∧
            open st' = true ∧ highlightedIndex st' = Some 2%Z.
Proof.
  eexists. eexists.
  split; [vm_compute; reflexivity|].
  split; [reflexivity|]. split; [reflexivity|].
  split; [vm_compute; reflexivity|].
  split; reflexivity.
Qed.

(** C5: on opening in single-select non-search mode with a non-empty value,
    no pending highlight and [highlightFirstItemOnOpen] unset, the computed
    index is the position of the value in [items], offset by -1 (up-arrow),
    +1 (down-arrow) or 0 (otherwise) and wrapped against the number of
    candidates: at or above it gives 0, below zero gives the last candidate
    index; the open transition stores that index. *)
Theorem open_on_selected_value p st changes its fi v :
  multiple p = false → search p = NoSearch →
  highlightFirstItemOnOpen p = false → items p = Some its →
  filteredItems st = Some fi → value st = Single (Some v) →
  truthy v = true →
  numberTruthy (highlightedIndex st) = false →
  getHighlightedIndexOnArrowKeyOpen p st changes
    = Ok (Some (wrapIndex (indexOf its v + openOffset (type changes))
                  (Z.of_nat (length fi)))) ∧
  (Consistent p st → open st = false → isOpen changes = Some true →
   ∃ st', step p st (StateChange changes) = Ok st' ∧ open st' = true ∧
          highlightedIndex st' =
            Some (wrapIndex (indexOf its v + openOffset (type changes))
                    (Z.of_nat (length fi)))).
Proof.
  intros Hm Hs Hf Hits Hfi Hv Ht Hp.
  assert (Hh : getHighlightedIndexOnArrowKeyOpen p st changes
    = Ok (Some (wrapIndex (indexOf its v + openOffset (type changes))
                  (Z.of_nat (length fi))))).
  { unfold getHighlightedIndexOnArrowKeyOpen, wrapIndex.
    rewrite Hfi, Hp, Hf, Hm, Hs, Hv, Hits. simpl. rewrite Ht. simpl.
    destruct (type changes); simpl; repeat case_match; reflexivity. }
  split; [exact Hh|].
  intros HC Ho Hi.
  destruct (handleStateChange_opening p st changes _ HC Ho Hi Hh)
    as (st' & Hstep & Ho' & Hh' & _).
  eauto.
Qed.

Lemma open_on_selected_value_witness :
  getHighlightedIndexOnArrowKeyOpen (withItems fruit false NoSearch)
    (stateWith (withItems fruit false NoSearch) false None
       (Single (Some (Str "Apple"))) fruit (Some ["apple"; "banana"; "cherry"])
       (Some ""))
    (opening keyDownArrowUp) = Ok (Some 2%Z) ∧
  ∃ st', step (withItems fruit false NoSearch)
           (stateWith (withItems fruit false NoSearch) false None
              (Single (Some (Str "Apple"))) fruit
              (Some ["apple"; "banana"; "cherry"]) (Some ""))
           (StateChange (opening keyDownArrowUp)) = Ok st' ∧
         open st' = true ∧ highlightedIndex st' = Some 2%Z.
Proof.
  destruct (open_on_selected_value (withItems fruit false NoSearch)
              (stateWith (withItems fruit false NoSearch) false None
                 (Single (Some (Str "Apple"))) fruit
                 (Some ["apple"; "banana"; "cherry"]) (Some ""))
              (opening keyDownArrowUp) fruit fruit (Str "Apple")
              eq_refl eq_refl eq_refl eq_refl eq_refl eq_refl eq_refl eq_refl)
    as [H1 H2].
  split; [exact H1|].
  apply H2; reflexivity.
Defined.

(** ** Selecting an item *)

Lemma getSelectedItemAsString_truthy p item :
  truthy item = true →
  getSelectedItemAsString p (Some item)
    = if multiple p then Some "" else Some (itemToString p item).
Proof.
  intros Ht. unfold getSelectedItemAsString. simpl. by rewrite Ht.
Qed.

(** Closes a goal [∃ st', derive p s = Ok st' ∧ ...] about fields that
    [derive] leaves alone. *)
Ltac after_derive p :=
  lazymatch goal with
  | |- ∃ st', derive p ?s = Ok st' ∧ _ =>
      let t := fresh "t" in
      let Ht := fresh "Ht" in
      let Hf := fresh "Hf" in
      destruct (derive_total p s) as [t Ht];
      [ try solve [intros _; simpl; eauto]
      | exists t; split; [exact Ht|];
        pose proof (derive_fields _ _ _ Ht) as Hf;
        let H1 := fresh in let H2 := fresh in let H3 := fresh in
        let H4 := fresh in let H5 := fresh in let H6 := fresh in
        let H7 := fresh in
        destruct Hf as (H1 & H2 & H3 & H4 & H5 & H6 & H7);
        rewrite ?H1, ?H2, ?H3, ?H4, ?H5, ?H6, ?H7;
        clear H1 H2 H3 H4 H5 H6 H7 ]
  end.

(** What [handleSelectedChange] does to the state of a single selection. *)
Lemma select_single p st item its :
  multiple p = false → items p = Some its → truthy item = true →
  ∃ st', step p st (SelectedChange item) = Ok st' ∧
         value st' = Single (Some item) ∧
         searchQuery st' = Some (itemToString p item) ∧
         highlightedIndex st' = Some (indexOf its item) ∧
         open st' = open st.
Proof.
  intros Hm Hits Ht. unfold step, exec. simpl. unfold handleSelectedChange.
  rewrite (getSelectedItemAsString_truthy _ _ Ht), Hm, Hits. simpl.
  unfold tryFocusTriggerButton.
  destruct (getA11ySelectionMessage p) as [[[f|] r]|];
    destruct (negb (searchTruthy (search p))); simpl.
  all: after_derive p; [by destruct st | by destruct st].
Qed.






Lemma step_Consistent p st op st' : step p st op = Ok st' → Consistent p st'.
Proof.
  unfold step, exec, Consistent.
  destruct (handler p st op); simpl; [|discriminate].
  apply derive_idempotent.
Qed.





(** ** Removing a chip *)







(** C8: in multiple mode, Backspace in the search input, with the search
    field empty (and the caret therefore at position 0), removes the last
    chip of a non-empty Value and leaves the rest of the selection state as
    it is; with an empty Value the removal of the last chip does nothing: no
    state update, no notification, the state is unchanged. *)
Theorem backspace_removes_last_chip p st rtl :
  (∀ vs selectionStart,
     multiple p = true → value st = Multi vs → vs ≠ [] →
     searchQuery st = Some "" →
     ∃ st', step p st (InputKeyDown keyboardKey.Backspace rtl selectionStart)
              = Ok st' ∧
            value st' = Multi (removelast vs) ∧
            searchQuery st' = Some "" ∧ open st' = open st ∧
            highlightedIndex st' = highlightedIndex st ∧
            activeSelectedIndex st' = activeSelectedIndex st) ∧
  (∀ selectionStart,
     value st = Multi [] →
     searchQuery st = Some "" ∨ is_Some selectionStart →
     tryRemoveItemFromValue p st selectionStart = Ok [] ∧
     handler p st (InputKeyDown keyboardKey.Backspace rtl selectionStart)
       = Ok [] ∧
     (Consistent p st →
      step p st (InputKeyDown keyboardKey.Backspace rtl selectionStart)
        = Ok st)).
Proof.
  split.
  - intros vs sel Hm Hv Hne Hq. unfold step, exec. simpl.
    unfold handleInputKeyDown, tryRemoveItemFromValue, removeItemFromValue.
    simpl. rewrite Hm, Hq, Hv. simpl.
    destruct vs as [|v vs]; [done|]. cbn [length Nat.ltb Nat.leb].
    unfold pop.
    destruct (getA11ySelectionMessage p) as [[a [f|]]|]; simpl.
    all: after_derive p; [intros _; destruct st; simpl in *; eauto|].
    all: repeat (split; [by destruct st|]); by destruct st.
  - intros sel Hv Hq.
    assert (H : tryRemoveItemFromValue p st sel = Ok []).
    { unfold tryRemoveItemFromValue. rewrite Hv.
      destruct (multiple p); [|done].
      destruct Hq as [->|[s ->]]; simpl; [done|].
      case_bool_decide; [done|]. simpl. by destruct (s =? 0)%Z. }
    split; [exact H|].
    assert (H' : handler p st (InputKeyDown keyboardKey.Backspace rtl sel)
                 = Ok []) by exact H.
    split; [exact H'|].
    intros HC. unfold step, exec. rewrite H'. exact HC.
Qed.

Lemma backspace_removes_last_chip_witness :
  ∃ st', step (withItems xyz true BuiltinSearch)
           (stateWith (withItems xyz true BuiltinSearch) false None
              (Multi [Str "X"; Str "Y"]) [Str "Z"] None None)
           (InputKeyDown keyboardKey.Backspace false (Some 0%Z)) = Ok st' ∧
         value st' = Multi [Str "X"].
Proof.
  destruct (backspace_removes_last_chip (withItems xyz true BuiltinSearch)
              (stateWith (withItems xyz true BuiltinSearch) false None
                 (Multi [Str "X"; Str "Y"]) [Str "Z"] None None) false)
    as [H _].
  destruct (H [Str "X"; Str "Y"] (Some 0%Z) eq_refl eq_refl
              ltac:(discriminate) eq_refl) as (st' & H1 & H2 & _).
  exists st'. split; [exact H1 | exact H2].
Defined.

(** ** Clearing *)


(** ** Type-ahead *)

Lemma firstMatchFrom_nonneg strs buffer from i :
  (0 ≤ from)%Z → firstMatchFrom strs buffer from = Some i → (0 ≤ i)%Z.
Proof.
  unfold firstMatchFrom. intros Hf.
  destruct (list_find _ _) as [[k s]|]; [|discriminate].
  intros [= <-]. lia.
Qed.

(** On a non-negative start, lodash's [findIndex] is the first match at or
    after the start, or [-1]. *)
Lemma findIndex_firstMatchFrom strs buffer from :
  (0 ≤ from)%Z →
  findIndex (Some strs) (λ item, startsWith item buffer) from
    = match firstMatchFrom strs buffer from with
      | Some i => i
      | None => (-1)%Z
      end.
Proof.
  intros Hf. unfold findIndex, firstMatchFrom.
  destruct (Z.eqb_spec (Z.of_nat (length strs)) 0) as [Hl|Hl].
  - destruct strs; [|simpl in Hl; lia]. by rewrite drop_nil.
  - destruct (Z.ltb_spec from 0); [lia|].
    by destruct (list_find _ _) as [[k s]|].
Qed.

#[local] Arguments findIndex : simpl never.

Lemma alphanumeric_not_control keyCode :
  isAlphanumericCode keyCode = true →
  (keyCode =? keyboardKey.Tab)%Z = false ∧
  (keyCode =? keyboardKey.Escape)%Z = false.
Proof.
  unfold isAlphanumericCode, keyboardKey.Tab, keyboardKey.Escape. lia.
Qed.

(** C4 (amended): for every accepted alphanumeric key of a non-search
    dropdown, the lower-cased character is appended to the type-ahead buffer
    and the candidate strings are scanned for the first entry that starts
    with the new buffer; the scan begins at the highlighted index itself
    when the buffer already held characters, just after it when the buffer
    was just started, and at index 0 when nothing is highlighted; when nothing
    matches from there the scan restarts at index 0; when nothing matches at
    all the highlighted index is left unchanged. *)
Theorem type_ahead_scan p st keyCode buffer strs :
  search p = NoSearch → isAlphanumericCode keyCode = true →
  startingString st = Some buffer → filteredItemStrings st = Some strs →
  (∀ h, highlightedIndex st = Some h → (0 ≤ h)%Z) →
  ∃ st', step p st (ListKeyDown keyCode) = Ok st' ∧
         startingString st'
           = Some (String.append buffer
                     (toLowerCase (fromCharCode keyCode))) ∧
         highlightedIndex st'
           = typeAheadAmended strs buffer (highlightedIndex st)
               (fromCharCode keyCode).
Proof.
  intros Hs Hk Hb Hstrs Hh.
  destruct (alphanumeric_not_control _ Hk) as [Htab Hesc].
  unfold step, exec. simpl. unfold handleListKeyDown.
  rewrite Htab, Hesc, Hk. unfold setHighlightedIndexOnCharKeyDown.
  rewrite Hb, Hstrs. simpl template.
  unfold typeAheadAmended, scanWithWrap, typeAheadStart.
  set (buffer' := String.append buffer (toLowerCase (fromCharCode keyCode))).
  destruct (highlightedIndex st) as [h|] eqn:Hhi; simpl.
  - specialize (Hh h eq_refl).
    assert (Hstart :
      (h + (if (0 <? String.length buffer)%nat then 0 else 1))%Z
      = (if decide (buffer = "") then (h + 1)%Z else h)).
    { destruct buffer; simpl; repeat case_decide; try done; lia. }
    rewrite Hstart.
    set (start := if decide (buffer = "") then (h + 1)%Z else h).
    assert (0 ≤ start)%Z by (unfold start; case_decide; lia).
    rewrite findIndex_firstMatchFrom by done.
    destruct (firstMatchFrom strs buffer' start) as [i|] eqn:Hi.
    + pose proof (firstMatchFrom_nonneg strs buffer' start i ltac:(lia) Hi).
      destruct (Z.ltb_spec i 0); [lia|].
      destruct (Z.geb_spec i 0); [|lia]. simpl.
      after_derive p; [by rewrite Hs|]. by destruct st.
    + simpl. rewrite findIndex_firstMatchFrom by done.
      destruct (firstMatchFrom strs buffer' 0) as [j|] eqn:Hj.
      * pose proof (firstMatchFrom_nonneg strs buffer' 0 j ltac:(lia) Hj).
        destruct (Z.geb_spec j 0); [|lia]. simpl.
        after_derive p; [by rewrite Hs|]. by destruct st.
      * simpl.
        after_derive p; [by rewrite Hs|].
        destruct st; simpl in *. by rewrite Hhi.
  - rewrite findIndex_firstMatchFrom by done.
    destruct (firstMatchFrom strs buffer' 0) as [j|] eqn:Hj.
    + pose proof (firstMatchFrom_nonneg strs buffer' 0 j ltac:(lia) Hj).
      destruct (Z.geb_spec j 0); [|lia]. simpl.
      after_derive p; [by rewrite Hs|]. by destruct st.
    + simpl.
      after_derive p; [by rewrite Hs|].
      destruct st; simpl in *. by rewrite Hhi.
Qed.

Lemma type_ahead_scan_witness :
  ∃ st', step (withItems fruit false NoSearch)
           (stateWith (withItems fruit false NoSearch) true (Some 0%Z)
              (Single None) fruit (Some ["apple"; "banana"; "cherry"])
              (Some ""))
           (ListKeyDown 66) = Ok st' ∧
         startingString st' = Some "b" ∧ highlightedIndex st' = Some 1%Z.
Proof.
  apply (type_ahead_scan (withItems fruit false NoSearch)
           (stateWith (withItems fruit false NoSearch) true (Some 0%Z)
              (Single None) fruit (Some ["apple"; "banana"; "cherry"])
              (Some ""))
           66 "" ["apple"; "banana"; "cherry"]).
  - reflexivity.
  - reflexivity.
  - reflexivity.
  - reflexivity.
  - simpl. intros h [= <-]. lia.
Defined.

(** C4, as stated, fails on both starts of the scan.  With "apple"
    highlighted and an empty buffer, the key "a" moves the highlight to
    "avocado": the scan starts after the highlighted entry, not at index 0.
    With "ab" highlighted and the buffer "a", the key "b" keeps "ab": the scan
    starts at the highlighted entry, not after it. *)
Lemma type_ahead_scan_start_differs :
  (∃ st',
     step (withItems [Str "Apple"; Str "Avocado"; Str "Banana"] false NoSearch)
       (stateWith
          (withItems [Str "Apple"; Str "Avocado"; Str "Banana"] false NoSearch)
          true (Some 0%Z) (Single None)
          [Str "Apple"; Str "Avocado"; Str "Banana"]
          (Some ["apple"; "avocado"; "banana"]) (Some ""))
       (ListKeyDown 65) = Ok st' ∧
     highlightedIndex st' = Some 1%Z ∧
     typeAheadAsWorded ["apple"; "avocado"; "banana"] "" (Some 0%Z)
       (fromCharCode 65) = Some 0%Z) ∧
  (∃ st',
     step (withItems [Str "Ab"; Str "Abc"] false NoSearch)
       (stateWith (withItems [Str "Ab"; Str "Abc"] false NoSearch)
          true (Some 0%Z) (Single None) [Str "Ab"; Str "Abc"]
          (Some ["ab"; "abc"]) (Some "a"))
       (ListKeyDown 66) = Ok st' ∧
     highlightedIndex st' = Some 0%Z ∧
     typeAheadAsWorded ["ab"; "abc"] "a" (Some 0%Z) (fromCharCode 66)
       = Some 1%Z).
Proof.
  split; eexists; (split; [vm_compute; reflexivity|]); split; reflexivity.
Qed.
(** * Further properties of the dropdown *)

(** ** Array primitives *)

Lemma indexOf_elem_of {A} `{EqDecision A} (l : list A) (x : A) :
  x ∈ l →
  ∃ i, indexOf l x = Z.of_nat i ∧ l !! i = Some x ∧
       ∀ j, (j < i)%nat → l !! j ≠ Some x.
Proof.
  intros Hx. unfold indexOf.
  destruct (list_find (λ y, y = x) l) as [[i y]|] eqn:Hf.
  - apply list_find_Some in Hf as (Hi & -> & Hlt).
    exists i. repeat split; [done|].
    intros j Hj Hl. by apply (Hlt j x).
  - apply list_find_None in Hf.
    rewrite Forall_forall in Hf. by destruct (Hf x Hx).
Qed.

Lemma indexOf_not_elem_of {A} `{EqDecision A} (l : list A) (x : A) :
  x ∉ l → indexOf l x = (-1)%Z.
Proof.
  intros Hx. unfold indexOf.
  destruct (list_find (λ y, y = x) l) as [[i y]|] eqn:Hf; [|done].
  apply list_find_Some in Hf as (Hi & -> & _).
  destruct Hx. by eapply list_elem_of_lookup_2.
Qed.

(** A result of [findIndex] other than [-1] is the position of a matching
    entry. *)
Lemma findIndex_match {A} (l : list A) (f : A → bool) (from r : Z) :
  findIndex (Some l) f from = r → r ≠ (-1)%Z →
  ∃ i x, r = Z.of_nat i ∧ l !! i = Some x ∧ f x = true.
Proof.
  unfold findIndex.
  destruct (Z.of_nat (length l) =? 0)%Z; [congruence|].
  set (index := if (from <? 0)%Z then _ else _).
  destruct (list_find _ _) as [[i x]|] eqn:Hf; [|congruence].
  apply list_find_Some in Hf as (Hi & Hx & _).
  rewrite lookup_drop in Hi.
  intros <- _.
  destruct (Z.le_gt_cases 0 index) as [Hpos|Hneg].
  - exists (Z.to_nat index + i)%nat, x. split; [lia|done].
  - exfalso. unfold index in Hneg. destruct (from <? 0)%Z eqn:E; lia.
Qed.

(** A scan from 0 finds a matching entry whenever there is one. *)
Lemma findIndex_from_0 {A} (l : list A) (f : A → bool) x :
  x ∈ l → f x = true → findIndex (Some l) f 0 ≠ (-1)%Z.
Proof.
  intros Hx Hfx. unfold findIndex.
  destruct (Z.eqb_spec (Z.of_nat (length l)) 0) as [Hl|Hl].
  - destruct l; [by apply elem_of_nil in Hx|simpl in Hl; lia].
  - simpl. rewrite drop_0.
    destruct (list_find _ _) as [[i y]|] eqn:Hf; [lia|].
    apply list_find_None in Hf. rewrite Forall_forall in Hf.
    by destruct (Hf x Hx).
Qed.

Lemma filterR_filter {A} (f : A → result bool) (g : A → bool) (l : list A) :
  (∀ x, x ∈ l → f x = Ok (g x)) →
  filterR f l = Ok (filter (λ x, g x = true) l).
Proof.
  induction l as [|a l IH]; intros Hf; [done|].
  simpl. rewrite (Hf a) by left. simpl.
  rewrite IH by (intros; apply Hf; by right). simpl.
  rewrite filter_cons. destruct (g a); by case_decide.
Qed.

Lemma includes_empty s : includes "" s = true.
Proof. unfold includes. by destruct s. Qed.

Lemma list_difference_nil (l : list Item) : difference l [] = l.
Proof.
  unfold difference. induction l as [|a l IH]; [done|].
  simpl. rewrite IH.
  destruct (decide_rel elem_of a []) as [H|H]; [by apply elem_of_nil in H|done].
Qed.


Lemma filter_all {A} (P : A → Prop) `{∀ x, Decision (P x)} (l : list A) :
  (∀ x, x ∈ l → P x) → filter P l = l.
Proof.
  induction l as [|a l IH]; intros Hl; [done|].
  rewrite filter_cons_True by (apply Hl; left).
  rewrite IH; [done|]. intros; apply Hl; by right.
Qed.

(** ** The candidate list *)


Lemma filteredItemsByValue_elem_of p its v x :
  x ∈ filteredItemsByValue p its v ↔
  x ∈ its ∧ (∀ vs, multiple p = true → v = Multi vs → x ∉ vs).
Proof.
  unfold filteredItemsByValue.
  destruct (multiple p).
  - destruct v as [o|vs].
    + split; [intros Hx; split; [done|discriminate]|by intros [Hx _]].
    + unfold difference. rewrite list_elem_of_difference.
      split; intros [Hx Hn]; (split; [done|]).
      * by intros vs' _ [= <-].
      * by apply Hn.
  - split; [intros Hx; split; [done|discriminate]|by intros [Hx _]].
Qed.

Lemma builtin_search_filter p s its q :
  items p = Some its → search p = BuiltinSearch → searchQuery s = Some q →
  getAutoControlledStateFromProps p s
    = Ok (Some [Set_filteredItems
                  (filter (λ x, matchesQuery p q x = true)
                     (filteredItemsByValue p its (value s)))]).
Proof.
  intros Hits Hs Hq. unfold getAutoControlledStateFromProps.
  rewrite Hits, Hs, Hq.
  change (if multiple p then _ else its)
    with (filteredItemsByValue p its (value s)).
  by rewrite (filterR_filter _ (matchesQuery p q)).
Qed.



(** X2: an empty query filters nothing: with the built-in search the
    candidates are all the items, less the chips of a multiple selection. *)
Theorem empty_query_keeps_all_candidates p s its :
  items p = Some its → search p = BuiltinSearch → searchQuery s = Some "" →
  getAutoControlledStateFromProps p s
    = Ok (Some [Set_filteredItems (filteredItemsByValue p its (value s))]) ∧
  (multiple p = false → filteredItemsByValue p its (value s) = its) ∧
  (∀ vs, multiple p = true → value s = Multi vs →
         ∀ x, x ∈ filteredItemsByValue p its (value s) ↔ x ∈ its ∧ x ∉ vs).
Proof.
  intros Hits Hs Hq. split; [|split].
  - unfold getAutoControlledStateFromProps. rewrite Hits, Hs, Hq.
    change (if multiple p then _ else its)
      with (filteredItemsByValue p its (value s)).
    rewrite (filterR_filter _ (λ _, true)).
    + simpl. by rewrite filter_all.
    + intros x _. simpl. by rewrite includes_empty.
  - intros Hm. unfold filteredItemsByValue. by rewrite Hm.
  - intros vs Hm Hv x. rewrite filteredItemsByValue_elem_of.
    split; intros [Hx Hn]; (split; [done|]).
    + by apply Hn.
    + intros vs' _ Hv'. rewrite Hv in Hv'. by injection Hv' as <-.
Qed.

Lemma empty_query_keeps_all_candidates_witness :
  getAutoControlledStateFromProps (withItems xyz true BuiltinSearch)
    (stateWith (withItems xyz true BuiltinSearch) false None (Multi [Str "X"])
       [] None None)
  = Ok (Some [Set_filteredItems [Str "Y"; Str "Z"]]).
Proof.
  exact (proj1 (empty_query_keeps_all_candidates
                  (withItems xyz true BuiltinSearch)
                  (stateWith (withItems xyz true BuiltinSearch) false None
                     (Multi [Str "X"]) [] None None)
                  xyz eq_refl eq_refl eq_refl)).
Defined.




(** ** Open, close and highlight notifications *)

(** X5: a close notification on an open panel closes it, emits one
    [onOpenChange] with no highlight, and leaves value, query, active chip
    and candidates as they are.  The highlight ends as "none", unless the
    same notification carries a numeric index, which is applied after the
    close. *)
Theorem close_clears_highlight p st changes :
  Consistent p st → open st = true → isOpen changes = Some false →
  ∃ effs st',
    handleStateChange p st changes = Ok effs ∧
    notifications effs
      = [(onOpenChange, [Set_open false; Set_highlightedIndex None])] ∧
    step p st (StateChange changes) = Ok st' ∧
    open st' = false ∧
    highlightedIndex st' = changes_highlightedIndex changes ∧
    value st' = value st ∧ searchQuery st' = searchQuery st ∧
    activeSelectedIndex st' = activeSelectedIndex st ∧
    filteredItems st' = filteredItems st.
Proof.
  intros HC Ho Hi. unfold step, exec. simpl. unfold handleStateChange.
  rewrite Hi, Ho. simpl.
  destruct (changes_highlightedIndex changes) as [n|]; simpl.
  all: eexists; eexists; split; [reflexivity|]; split; [reflexivity|].
  all: split; [apply (derive_same p st); try done; by destruct st|].
  all: by destruct st.
Qed.

Lemma close_clears_highlight_witness :
  ∃ effs st',
    handleStateChange (withItems fruit false NoSearch)
      (stateWith (withItems fruit false NoSearch) true (Some 1%Z)
         (Single None) fruit (Some ["apple"; "banana"; "cherry"]) (Some ""))
      closing = Ok effs ∧
    step (withItems fruit false NoSearch)
      (stateWith (withItems fruit false NoSearch) true (Some 1%Z)
         (Single None) fruit (Some ["apple"; "banana"; "cherry"]) (Some ""))
      (StateChange closing) = Ok st' ∧
    open st' = false ∧ highlightedIndex st' = None.
Proof.
  destruct (close_clears_highlight (withItems fruit false NoSearch)
              (stateWith (withItems fruit false NoSearch) true (Some 1%Z)
                 (Single None) fruit (Some ["apple"; "banana"; "cherry"])
                 (Some ""))
              closing eq_refl eq_refl eq_refl)
    as (effs & st' & H1 & _ & H2 & H3 & H4 & _).
  exists effs, st'. repeat split; assumption.
Defined.

(** X6: while the panel is closed, a notification that does not open it does
    nothing at all, whatever highlight it carries: no state update, no
    [onOpenChange], and the state is unchanged. *)
Theorem closed_panel_ignores_notifications p st changes :
  open st = false → isOpen changes ≠ Some true →
  handleStateChange p st changes = Ok [] ∧
  (Consistent p st → step p st (StateChange changes) = Ok st).
Proof.
  intros Ho Hi.
  assert (H : handleStateChange p st changes = Ok []).
  { unfold handleStateChange. rewrite Ho.
    destruct (isOpen changes) as [[|]|]; done. }
  split; [exact H|].
  intros HC. unfold step, exec. simpl. rewrite H. exact HC.
Qed.

Lemma closed_panel_ignores_notifications_witness :
  handleStateChange (withItems fruit false NoSearch)
    (stateWith (withItems fruit false NoSearch) false None (Single None)
       fruit None None)
    {| type := itemMouseEnter; isOpen := None;
       changes_highlightedIndex := Some 2%Z |} = Ok [].
Proof.
  apply (closed_panel_ignores_notifications (withItems fruit false NoSearch)
           (stateWith (withItems fruit false NoSearch) false None
              (Single None) fruit None None)
           {| type := itemMouseEnter; isOpen := None;
              changes_highlightedIndex := Some 2%Z |}).
  - reflexivity.
  - discriminate.
Defined.

(** X7: while the panel is open, a notification that keeps it open and
    carries a numeric highlight sets HighlightedIndex to it, records that the
    highlight came from the keyboard unless the notification is a mouse
    enter, and emits nothing to the caller. *)
Theorem open_panel_takes_highlight p st changes n :
  Consistent p st → open st = true → isOpen changes ≠ Some false →
  changes_highlightedIndex changes = Some n →
  ∃ effs st',
    handleStateChange p st changes = Ok effs ∧ notifications effs = [] ∧
    step p st (StateChange changes) = Ok st' ∧
    open st' = true ∧ highlightedIndex st' = Some n ∧
    itemIsFromKeyboard st' = bool_decide (type changes ≠ itemMouseEnter) ∧
    value st' = value st ∧ searchQuery st' = searchQuery st.
Proof.
  intros HC Ho Hi Hn. unfold step, exec. simpl. unfold handleStateChange.
  rewrite Ho, Hn. simpl.
  destruct (isOpen changes) as [[|]|]; [| done |]; simpl.
  all: eexists; eexists; split; [reflexivity|]; split; [reflexivity|].
  all: split; [apply (derive_same p st); try done; by destruct st|].
  all: by destruct st.
Qed.

Lemma open_panel_takes_highlight_witness :
  ∃ effs st',
    handleStateChange (withItems fruit false NoSearch)
      (stateWith (withItems fruit false NoSearch) true None (Single None)
         fruit (Some ["apple"; "banana"; "cherry"]) (Some ""))
      {| type := itemMouseEnter; isOpen := None;
         changes_highlightedIndex := Some 2%Z |} = Ok effs ∧
    step (withItems fruit false NoSearch)
      (stateWith (withItems fruit false NoSearch) true None (Single None)
         fruit (Some ["apple"; "banana"; "cherry"]) (Some ""))
      (StateChange {| type := itemMouseEnter; isOpen := None;
                      changes_highlightedIndex := Some 2%Z |}) = Ok st' ∧
    highlightedIndex st' = Some 2%Z ∧ itemIsFromKeyboard st' = false.
Proof.
  destruct (open_panel_takes_highlight (withItems fruit false NoSearch)
              (stateWith (withItems fruit false NoSearch) true None
                 (Single None) fruit (Some ["apple"; "banana"; "cherry"])
                 (Some ""))
              {| type := itemMouseEnter; isOpen := None;
                 changes_highlightedIndex := Some 2%Z |} 2%Z
              eq_refl eq_refl ltac:(discriminate) eq_refl)
    as (effs & st' & H1 & _ & H2 & _ & H3 & H4 & _).
  exists effs, st'. repeat split; assumption.
Defined.



(** X9: the defaults of an open transition when no index is pending (the
    highlight is "none" or 0).  Under [highlightFirstItemOnOpen] the new
    highlight is 0 for every reason.  Otherwise, outside the single-select
    non-search case with a value, a down-arrow gives 0, an up-arrow the last
    candidate index, and any other reason leaves the highlight as it was. *)
Theorem open_defaults p st changes fi :
  Consistent p st → open st = false → isOpen changes = Some true →
  filteredItems st = Some fi → numberTruthy (highlightedIndex st) = false →
  (highlightFirstItemOnOpen p = true →
   ∃ st', step p st (StateChange changes) = Ok st' ∧ open st' = true ∧
          highlightedIndex st' = Some 0%Z) ∧
  (highlightFirstItemOnOpen p = false →
   negb (multiple p) && negb (searchTruthy (search p))
     && valueTruthy (value st) = false →
   ∃ st', step p st (StateChange changes) = Ok st' ∧ open st' = true ∧
          highlightedIndex st' =
            match type changes with
            | keyDownArrowDown => Some 0%Z
            | keyDownArrowUp => Some (Z.of_nat (length fi) - 1)%Z
            | _ => highlightedIndex st
            end).
Proof.
  intros HC Ho Hi Hfi Hp. split.
  - intros Hf.
    assert (Hh : getHighlightedIndexOnArrowKeyOpen p st changes
                 = Ok (Some 0%Z)).
    { unfold getHighlightedIndexOnArrowKeyOpen. by rewrite Hfi, Hp, Hf. }
    destruct (handleStateChange_opening p st changes _ HC Ho Hi Hh)
      as (st' & ? & ? & ? & _).
    eauto.
  - intros Hf Hv.
    assert (Hh : getHighlightedIndexOnArrowKeyOpen p st changes
                 = Ok match type changes with
                      | keyDownArrowDown => Some 0%Z
                      | keyDownArrowUp => Some (Z.of_nat (length fi) - 1)%Z
                      | _ => None
                      end).
    { unfold getHighlightedIndexOnArrowKeyOpen.
      rewrite Hfi, Hp, Hf, Hv. simpl. by destruct (type changes). }
    destruct (handleStateChange_opening p st changes _ HC Ho Hi Hh)
      as (st' & ? & ? & Hh' & _).
    exists st'. split; [done|]. split; [done|].
    rewrite Hh'. by destruct (type changes).
Qed.

Lemma open_defaults_witness :
  ∃ st', step (withItems xyz true NoSearch)
           (stateWith (withItems xyz true NoSearch) false None (Multi [])
              xyz (Some ["x"; "y"; "z"]) (Some ""))
           (StateChange (opening keyDownArrowUp)) = Ok st' ∧
         open st' = true ∧ highlightedIndex st' = Some 2%Z.
Proof.
  destruct (open_defaults (withItems xyz true NoSearch)
              (stateWith (withItems xyz true NoSearch) false None (Multi [])
                 xyz (Some ["x"; "y"; "z"]) (Some ""))
              (opening keyDownArrowUp) xyz
              eq_refl eq_refl eq_refl eq_refl eq_refl) as [_ H].
  exact (H eq_refl eq_refl).
Defined.

(** X10: without an [items] prop the candidate list stays undefined, and
    then an open transition throws (it reads the length of the candidate
    list), as does a selection in single mode (it reads the position of the
    item in [items]). *)
Theorem no_items_open_and_select_throw p st :
  items p = None → Reachable p st →
  filteredItems st = None ∧
  (∀ changes, open st = false → isOpen changes = Some true →
     step p st (StateChange changes) = TypeError) ∧
  (∀ item, multiple p = false →
     step p st (SelectedChange item) = TypeError).
Proof.
  intros Hits HR.
  pose proof (Reachable_no_items p st Hits HR) as Hfi.
  split; [done|]. split.
  - intros changes Ho Hi. unfold step, exec. simpl.
    unfold handleStateChange, getHighlightedIndexOnArrowKeyOpen.
    by rewrite Hi, Ho, Hfi.
  - intros item Hm. unfold step, exec. simpl.
    unfold handleSelectedChange. by rewrite Hm, Hits.
Qed.

Lemma no_items_open_and_select_throw_witness :
  step baseProps (getInitialAutoControlledState baseProps)
    (StateChange (opening keyDownArrowDown)) = TypeError.
Proof.
  destruct (no_items_open_and_select_throw baseProps
              (getInitialAutoControlledState baseProps) eq_refl)
    as (_ & H & _).
  - apply (run_Reachable _ []). reflexivity.
  - apply H; reflexivity.
Defined.

(** ** Keys on the list *)

(** The effects of a character key: the buffer update and, for a result [r]
    of the two scans that is not negative, the new highlight. *)
Lemma charKey_effects st keyString buffer strs :
  startingString st = Some buffer → filteredItemStrings st = Some strs →
  let buffer' := String.append buffer (toLowerCase keyString) in
  ∃ r, setHighlightedIndexOnCharKeyDown st keyString
       = Ok ([ClearTimeout charKeysPressedTimeout;
              SetState [Set_startingString buffer'];
              SetTimeout charKeysPressedTimeout charKeyPressedCleanupTime]
             ++ (if (r >=? 0)%Z
                 then [SetState [Set_highlightedIndex (Some r)]]
                 else [])) ∧
       (r = (-1)%Z ∨
        ∃ i x, r = Z.of_nat i ∧ strs !! i = Some x ∧
               startsWith x buffer' = true) ∧
       ((∃ s, s ∈ strs ∧ startsWith s buffer' = true) → r ≠ (-1)%Z).
Proof.
  intros Hb Hstrs buffer'.
  set (f := λ item : string, startsWith item buffer').
  set (first :=
    match highlightedIndex st with
    | Some hi =>
        findIndex (Some strs) f
          (hi + (if (0 <? String.length buffer)%nat then 0 else 1))%Z
    | None => (-1)%Z
    end).
  exists (if (first <? 0)%Z then findIndex (Some strs) f 0 else first).
  split; [|split].
  - unfold setHighlightedIndexOnCharKeyDown. rewrite Hb, Hstrs.
    unfold first. simpl template. fold buffer'. fold f.
    destruct (highlightedIndex st) as [hi|]; simpl.
    + by destruct (_ >=? 0)%Z.
    + by destruct (_ >=? 0)%Z.
  - set (r := if (first <? 0)%Z then _ else _).
    destruct (Z.eq_dec r (-1)) as [|Hne]; [by left|right].
    unfold r in *. destruct (Z.ltb_spec first 0) as [Hlt|Hge].
    + by apply (findIndex_match strs f 0).
    + unfold first in *. destruct (highlightedIndex st) as [hi|]; [|lia].
      by eapply findIndex_match.
  - intros (s & Hin & Hfs).
    destruct (Z.ltb_spec first 0) as [Hlt|Hge]; [|lia].
    by apply (findIndex_from_0 strs f s).
Qed.

(** X11: after an accepted alphanumeric key in a non-search dropdown, the
    buffer holds the lower-cased character at its end; the highlight is on an
    entry that starts with the new buffer whenever some entry does, and is
    unchanged when none does. *)
Theorem type_ahead_lands_on_match p st keyCode buffer strs :
  search p = NoSearch → isAlphanumericCode keyCode = true →
  startingString st = Some buffer → filteredItemStrings st = Some strs →
  ∃ st', step p st (ListKeyDown keyCode) = Ok st' ∧
    startingString st'
      = Some (String.append buffer (toLowerCase (fromCharCode keyCode))) ∧
    ((∃ s, s ∈ strs ∧
           startsWith s
             (String.append buffer (toLowerCase (fromCharCode keyCode)))
           = true) →
     ∃ i s, highlightedIndex st' = Some (Z.of_nat i) ∧ strs !! i = Some s ∧
            startsWith s
              (String.append buffer (toLowerCase (fromCharCode keyCode)))
            = true) ∧
    ((∀ s, s ∈ strs →
           startsWith s
             (String.append buffer (toLowerCase (fromCharCode keyCode)))
           = false) →
     highlightedIndex st' = highlightedIndex st).
Proof.
  intros Hs Hk Hb Hstrs.
  destruct (alphanumeric_not_control _ Hk) as [Htab Hesc].
  destruct (charKey_effects st (fromCharCode keyCode) buffer strs Hb Hstrs)
    as (r & Heff & Hr & Hsome).
  unfold step, exec. simpl. unfold handleListKeyDown.
  rewrite Htab, Hesc, Hk, Heff. clear Heff.
  set (buffer' := String.append buffer (toLowerCase (fromCharCode keyCode)))
    in *.
  destruct (Z.geb_spec r 0) as [Hge|Hlt]; simpl.
  - after_derive p; [by rewrite Hs|].
    split; [by destruct st|]. split.
    + intros _. destruct Hr as [->|(i & x & -> & Hi & Hx)]; [lia|].
      exists i, x. by destruct st.
    + intros Hall. destruct Hr as [->|(i & x & -> & Hi & Hx)]; [lia|].
      assert (Hf : startsWith x buffer' = false)
        by (apply Hall; by eapply list_elem_of_lookup_2).
      congruence.
  - after_derive p; [by rewrite Hs|].
    split; [by destruct st|]. split.
    + intros Hex. destruct Hr as [->|(i & x & -> & _)]; [|lia].
      by destruct (Hsome Hex).
    + intros _. by destruct st.
Qed.

Lemma type_ahead_lands_on_match_witness :
  ∃ st', step (withItems fruit false NoSearch)
           (stateWith (withItems fruit false NoSearch) true (Some 2%Z)
              (Single None) fruit (Some ["apple"; "banana"; "cherry"])
              (Some ""))
           (ListKeyDown 66) = Ok st' ∧
         startingString st' = Some "b" ∧ highlightedIndex st' = Some 1%Z.
Proof.
  destruct (type_ahead_lands_on_match (withItems fruit false NoSearch)
              (stateWith (withItems fruit false NoSearch) true (Some 2%Z)
                 (Single None) fruit (Some ["apple"; "banana"; "cherry"])
                 (Some ""))
              66 "" ["apple"; "banana"; "cherry"]
              eq_refl eq_refl eq_refl eq_refl) as (st' & H1 & H2 & _).
  exists st'. split; [exact H1|]. split; [exact H2|].
  vm_compute in H1. by injection H1 as <-.
Defined.

(** X12: Tab, on the list or in the search input, acts only on an open
    panel.  It selects the highlighted index only when one is set and the
    candidate list is not empty, and then keeps the focus (prevents the
    default) exactly in a multiple selection without [moveFocusOnTab]; with
    no highlight or an empty candidate list it toggles the menu instead. *)
Theorem tab_selects_only_highlighted_candidate p st highlighted fi
    (kd toggleMenu : Action) (selectItemAtIndex : Z → Action) rtl caret :
  filteredItems st = Some fi →
  handleListKeyDown p st keyboardKey.Tab highlighted kd toggleMenu
    selectItemAtIndex
  = handleInputKeyDown p st keyboardKey.Tab rtl highlighted caret
      selectItemAtIndex toggleMenu ∧
  (open st = false →
   handleListKeyDown p st keyboardKey.Tab highlighted kd toggleMenu
     selectItemAtIndex = skip) ∧
  (open st = true → highlighted = None ∨ fi = [] →
   handleListKeyDown p st keyboardKey.Tab highlighted kd toggleMenu
     selectItemAtIndex = toggleMenu) ∧
  (open st = true → fi ≠ [] → ∀ n, highlighted = Some n →
   handleListKeyDown p st keyboardKey.Tab highlighted kd toggleMenu
     selectItemAtIndex
   = (selectItemAtIndex n ;;
      if negb (moveFocusOnTab p) && multiple p then emit PreventDefault
      else skip)).
Proof.
  intros Hfi. unfold handleListKeyDown, handleInputKeyDown, handleTabSelection.
  simpl. rewrite Hfi. simpl.
  split; [done|]. split; [by intros ->|]. split.
  - intros -> [ -> | -> ]; [done|]. by destruct highlighted.
  - intros -> Hne n ->. by destruct fi.
Qed.

Lemma tab_selects_only_highlighted_candidate_witness :
  handleListKeyDown (withItems xyz true NoSearch)
    (stateWith (withItems xyz true NoSearch) true (Some 1%Z) (Multi []) xyz
       None None)
    keyboardKey.Tab (Some 1%Z) skip (emit StopPropagation)
    (λ _, emit ScrollSelectedItemsToEnd)
  = Ok [ScrollSelectedItemsToEnd; PreventDefault].
Proof.
  destruct (tab_selects_only_highlighted_candidate
              (withItems xyz true NoSearch)
              (stateWith (withItems xyz true NoSearch) true (Some 1%Z)
                 (Multi []) xyz None None)
              (Some 1%Z) xyz skip (emit StopPropagation)
              (λ _, emit ScrollSelectedItemsToEnd) false None eq_refl)
    as (_ & _ & _ & H).
  exact (H eq_refl ltac:(discriminate) 1%Z eq_refl).
Defined.



(** ** Chips *)

(** X14: the arrow keys are mirrored under a right-to-left layout: on a
    chip, in the search input and on the trigger button, the left arrow with
    [rtl] does what the right arrow does without it, and the other way
    round. *)
Theorem arrow_keys_mirrored_under_rtl p st item highlighted caret
    (selectItemAtIndex : Z → Action) (toggleMenu : Action) :
  handleSelectedItemKeyDown p st keyboardKey.ArrowLeft item true
    = handleSelectedItemKeyDown p st keyboardKey.ArrowRight item false ∧
  handleSelectedItemKeyDown p st keyboardKey.ArrowRight item true
    = handleSelectedItemKeyDown p st keyboardKey.ArrowLeft item false ∧
  handleInputKeyDown p st keyboardKey.ArrowLeft true highlighted caret
      selectItemAtIndex toggleMenu
    = handleInputKeyDown p st keyboardKey.ArrowRight false highlighted caret
        selectItemAtIndex toggleMenu ∧
  handleInputKeyDown p st keyboardKey.ArrowRight true highlighted caret
      selectItemAtIndex toggleMenu
    = handleInputKeyDown p st keyboardKey.ArrowLeft false highlighted caret
        selectItemAtIndex toggleMenu ∧
  handleTriggerButtonKeyDown p st keyboardKey.ArrowLeft true caret
    = handleTriggerButtonKeyDown p st keyboardKey.ArrowRight false caret ∧
  handleTriggerButtonKeyDown p st keyboardKey.ArrowRight true caret
    = handleTriggerButtonKeyDown p st keyboardKey.ArrowLeft false caret.
Proof.
  unfold handleSelectedItemKeyDown, handleInputKeyDown,
    handleTriggerButtonKeyDown. simpl.
  repeat split.
Qed.

(** X15: the arrow keys on a chip move the active chip by one within the
    chips: the "previous" key stops at the first chip; the "next" key on the
    last chip leaves the chips, clears ActiveSelectedIndex and moves the
    focus to the search input (in search mode) or to the trigger button.
    Value is never changed. *)
Theorem chip_navigation p st vs a item (rtl : bool) :
  Consistent p st → value st = Multi vs →
  activeSelectedIndex st = Some a → (0 ≤ a < Z.of_nat (length vs))%Z →
  (∃ st', step p st
            (SelectedItemKeyDown
               (if rtl then keyboardKey.ArrowRight else keyboardKey.ArrowLeft)
               item rtl) = Ok st' ∧
          activeSelectedIndex st' = Some (Z.max (a - 1) 0)%Z ∧
          value st' = value st) ∧
  (∃ effs st',
     handleSelectedItemKeyDown p st
       (if rtl then keyboardKey.ArrowLeft else keyboardKey.ArrowRight)
       item rtl = Ok effs ∧
     step p st
       (SelectedItemKeyDown
          (if rtl then keyboardKey.ArrowLeft else keyboardKey.ArrowRight)
          item rtl) = Ok st' ∧
     value st' = value st ∧
     (if (a <? Z.of_nat (length vs) - 1)%Z
      then (activeSelectedIndex st' = Some (a + 1)%Z ∧
            ((Focus inputRef) ∉ effs) ∧ ((Focus buttonRef) ∉ effs))
      else (activeSelectedIndex st' = None ∧
            (Focus (if searchTruthy (search p) then inputRef else buttonRef))
              ∈ effs))).
Proof.
  intros HC Hv Ha Hb.
  assert (Hlen : (0 <? Z.of_nat (length vs))%Z = true) by lia.
  split.
  - unfold step, exec. simpl. unfold handleSelectedItemKeyDown.
    rewrite Hv, Ha. simpl. rewrite Hlen.
    destruct rtl; simpl; destruct (Z.ltb_spec 0 a); simpl.
    all: eexists; split;
      [apply (derive_same p st); try done; by destruct st|].
    all: split; [|by destruct st].
    all: destruct st; simpl in *; rewrite ?Ha; f_equal; lia.
  - unfold step, exec. simpl. unfold handleSelectedItemKeyDown.
    rewrite Hv, Ha. simpl. rewrite Hlen.
    destruct rtl; simpl; destruct (Z.ltb_spec a (Z.of_nat (length vs) - 1));
      simpl.
    all: try destruct (searchTruthy (search p)); simpl.
    all: eexists; eexists; split; [reflexivity|]; split;
      [apply (derive_same p st); try done; by destruct st|].
    all: split; [by destruct st|].
    all: split; [by destruct st|].
    all: try (split; intros Hin);
      repeat (apply elem_of_cons in Hin as [Hin|Hin]; [discriminate|]);
      try (by apply elem_of_nil in Hin).
    all: repeat first [apply list_elem_of_here | apply list_elem_of_further].
Qed.

Lemma chip_navigation_witness :
  ∃ st', step (withItems xyz true BuiltinSearch)
           (merge (stateWith (withItems xyz true BuiltinSearch) false None
                     (Multi [Str "X"; Str "Y"]) [Str "Z"] None None)
              [Set_activeSelectedIndex (Some 0%Z)])
           (SelectedItemKeyDown keyboardKey.ArrowLeft (Str "X") false)
         = Ok st' ∧
         activeSelectedIndex st' = Some 0%Z.
Proof.
  destruct (chip_navigation (withItems xyz true BuiltinSearch)
              (merge (stateWith (withItems xyz true BuiltinSearch) false None
                        (Multi [Str "X"; Str "Y"]) [Str "Z"] None None)
                 [Set_activeSelectedIndex (Some 0%Z)])
              [Str "X"; Str "Y"] 0%Z (Str "X") false
              eq_refl eq_refl eq_refl ltac:(simpl; lia))
    as [(st' & H1 & H2 & _) _].
  exists st'. split; [exact H1 | exact H2].
Defined.

(** X16: the "previous" arrow in the search input (left, or right under
    [rtl]) makes the last chip the active one when the selection is multiple,
    the caret is at position 0 (or the input is not mounted) and there is a
    chip; in single mode, with the caret elsewhere, or without chips, it does
    nothing. *)
Theorem previous_arrow_activates_last_chip p st (rtl : bool) caret :
  (∀ vs, Consistent p st → multiple p = true → value st = Multi vs →
         vs ≠ [] → caret = None ∨ caret = Some 0%Z →
     ∃ st', step p st
              (InputKeyDown
                 (if rtl then keyboardKey.ArrowRight
                  else keyboardKey.ArrowLeft) rtl caret) = Ok st' ∧
            activeSelectedIndex st' = Some (Z.of_nat (length vs) - 1)%Z ∧
            value st' = value st) ∧
  (multiple p = false ∨ (∃ c, caret = Some c ∧ c ≠ 0%Z) ∨ value st = Multi [] →
   handler p st
     (InputKeyDown
        (if rtl then keyboardKey.ArrowRight else keyboardKey.ArrowLeft)
        rtl caret) = Ok []).
Proof.
  split.
  - intros vs HC Hm Hv Hne Hc. unfold step, exec. simpl.
    assert (Hh : handleInputKeyDown p st
                   (if rtl then keyboardKey.ArrowRight
                    else keyboardKey.ArrowLeft) rtl (highlightedIndex st)
                   caret (λ _, skip) skip
                 = trySetLastSelectedItemAsActive p st caret)
      by (by destruct rtl).
    rewrite Hh. unfold trySetLastSelectedItemAsActive. rewrite Hm, Hv. simpl.
    assert (Hcaret : match caret with
                     | Some s => negb (s =? 0)%Z
                     | None => false
                     end = false) by (by destruct Hc as [->| ->]).
    rewrite Hcaret. simpl.
    destruct vs as [|v vs]; [done|]. cbn [length Nat.ltb Nat.leb].
    case_bool_decide; simpl.
    all: eexists; split;
      [apply (derive_same p st); try done; by destruct st|].
    all: split; [|by destruct st].
    all: by destruct st.
  - intros H.
    assert (Hh : handleInputKeyDown p st
                   (if rtl then keyboardKey.ArrowRight
                    else keyboardKey.ArrowLeft) rtl (highlightedIndex st)
                   caret (λ _, skip) skip
                 = trySetLastSelectedItemAsActive p st caret)
      by (by destruct rtl).
    simpl. rewrite Hh. unfold trySetLastSelectedItemAsActive.
    destruct H as [->|[(c & -> & Hc)| ->]]; [done| |].
    + destruct (negb (multiple p)); simpl; [done|].
      by destruct (Z.eqb_spec c 0).
    + by destruct (negb (multiple p) || _).
Qed.

Lemma previous_arrow_activates_last_chip_witness :
  ∃ st', step (withItems xyz true BuiltinSearch)
           (stateWith (withItems xyz true BuiltinSearch) false None
              (Multi [Str "X"; Str "Y"]) [Str "Z"] None None)
           (InputKeyDown keyboardKey.ArrowLeft false (Some 0%Z)) = Ok st' ∧
         activeSelectedIndex st' = Some 1%Z.
Proof.
  destruct (previous_arrow_activates_last_chip
              (withItems xyz true BuiltinSearch)
              (stateWith (withItems xyz true BuiltinSearch) false None
                 (Multi [Str "X"; Str "Y"]) [Str "Z"] None None)
              false (Some 0%Z)) as [H _].
  destruct (H [Str "X"; Str "Y"] eq_refl eq_refl eq_refl
              ltac:(discriminate) (or_intror eq_refl))
    as (st' & H1 & H2 & _).
  exists st'. split; [exact H1 | exact H2].
Defined.

(** X17: removing a chip by its item takes every occurrence of a non-empty
    item out of Value and keeps the other chips in their order; it clears
    ActiveSelectedIndex and emits one [onSelectedChange], also when the item
    was not among the chips and Value is therefore unchanged. *)
Theorem remove_chip_by_item p st item vs :
  value st = Multi vs → truthy item = true →
  (search p = BuiltinSearch → is_Some (searchQuery st)) →
  ∃ effs vs',
    handleSelectedItemRemove p st item = Ok effs ∧
    notifications effs = [(onSelectedChange, [Set_value (Multi vs')])] ∧
    (item ∉ vs') ∧ sublist vs' vs ∧
    (∀ x, x ≠ item → x ∈ vs → x ∈ vs') ∧
    (item ∉ vs → vs' = vs) ∧
    ∃ st', step p st (SelectedItemRemove item) = Ok st' ∧
           value st' = Multi vs' ∧
           activeSelectedIndex st' = None ∧
           searchQuery st' = searchQuery st.
Proof.
  intros Hv Ht Hq. unfold step, exec. simpl.
  unfold handleSelectedItemRemove, removeItemFromValue.
  rewrite Hv, Ht. simpl.
  unfold tryFocusSearchInput, tryFocusTriggerButton.
  assert (Hfilter : (item ∉ filter (λ c, c ≠ item) vs) ∧
                    sublist (filter (λ c, c ≠ item) vs) vs ∧
                    (∀ x, x ≠ item → x ∈ vs → x ∈ filter (λ c, c ≠ item) vs) ∧
                    (item ∉ vs → filter (λ c, c ≠ item) vs = vs)).
  { split; [|split; [|split]].
    - rewrite list_elem_of_filter. by intros [? _].
    - apply sublist_filter.
    - intros x Hx Hin. by apply list_elem_of_filter.
    - intros Hn. apply filter_all. by intros x Hx ->. }
  destruct (getA11ySelectionMessage p) as [[a [f|]]|];
    destruct (searchTruthy (search p)); simpl.
  all: eexists; eexists; split; [reflexivity|];
    split; [reflexivity|].
  all: destruct Hfilter as (? & ? & ? & ?).
  all: repeat (split; [done|]).
  all: after_derive p; [intros Hb; specialize (Hq Hb); by destruct st|].
  all: repeat (split; [by destruct st|]); by destruct st.
Qed.

Lemma remove_chip_by_item_witness :
  ∃ st', step (withItems xyz true BuiltinSearch)
           (stateWith (withItems xyz true BuiltinSearch) false None
              (Multi [Str "X"; Str "Y"]) [Str "Z"] None None)
           (SelectedItemRemove (Str "X")) = Ok st' ∧
         value st' = Multi [Str "Y"].
Proof.
  destruct (remove_chip_by_item (withItems xyz true BuiltinSearch)
              (stateWith (withItems xyz true BuiltinSearch) false None
                 (Multi [Str "X"; Str "Y"]) [Str "Z"] None None)
              (Str "X") [Str "X"; Str "Y"] eq_refl eq_refl
              ltac:(intros _; simpl; eauto))
    as (effs & vs' & _ & _ & _ & _ & _ & _ & st' & H1 & _).
  exists st'. split; [exact H1|].
  vm_compute in H1. by injection H1 as <-.
Defined.

(** X18: removing the chip of an empty-string item does not look for the
    item: it drops the last chip, whichever it is, and announces that one. *)
Theorem remove_empty_item_pops_last p st item vs :
  value st = Multi vs → truthy item = false →
  (search p = BuiltinSearch → is_Some (searchQuery st)) →
  ∃ st', step p st (SelectedItemRemove item) = Ok st' ∧
         value st' = Multi (removelast vs) ∧
         activeSelectedIndex st' = None ∧
         (∀ m f, getA11ySelectionMessage p = Some m → onRemove m = Some f →
                 a11ySelectionStatus st' = f (last vs)).
Proof.
  intros Hv Ht Hq. unfold step, exec. simpl.
  unfold handleSelectedItemRemove, removeItemFromValue.
  rewrite Hv, Ht. simpl. unfold pop.
  unfold tryFocusSearchInput, tryFocusTriggerButton.
  destruct (getA11ySelectionMessage p) as [[a [f|]]|];
    destruct (searchTruthy (search p)); simpl.
  all: after_derive p; [intros Hb; specialize (Hq Hb); by destruct st|].
  all: split; [by destruct st|]; split; [by destruct st|].
  all: intros m' f' Hm Hf; simplify_eq; simpl in *; simplify_eq.
  all: by destruct st.
Qed.

Lemma remove_empty_item_pops_last_witness :
  ∃ st', step (withItems [Str ""; Str "Y"] true NoSearch)
           (stateWith (withItems [Str ""; Str "Y"] true NoSearch) false None
              (Multi [Str ""; Str "Y"]) [] (Some []) (Some ""))
           (SelectedItemRemove (Str "")) = Ok st' ∧
         value st' = Multi [Str ""].
Proof.
  destruct (remove_empty_item_pops_last
              (withItems [Str ""; Str "Y"] true NoSearch)
              (stateWith (withItems [Str ""; Str "Y"] true NoSearch) false
                 None (Multi [Str ""; Str "Y"]) [] (Some []) (Some ""))
              (Str "") [Str ""; Str "Y"] eq_refl eq_refl
              ltac:(discriminate))
    as (st' & H1 & H2 & _).
  exists st'. split; [exact H1 | exact H2].
Defined.

(** X19: a click on a chip makes it the active one: ActiveSelectedIndex
    becomes the first position of the chip's item in Value; nothing else of
    the selection changes and the click is not propagated. *)
Theorem chip_click_activates_chip p st item vs :
  Consistent p st → value st = Multi vs → item ∈ vs →
  ∃ i st', handleSelectedItemClick st item
             = Ok [SetState [Set_activeSelectedIndex (Some (Z.of_nat i))];
                   StopPropagation] ∧
           vs !! i = Some item ∧ (∀ j, (j < i)%nat → vs !! j ≠ Some item) ∧
           step p st (SelectedItemClick item) = Ok st' ∧
           activeSelectedIndex st' = Some (Z.of_nat i) ∧
           value st' = value st ∧ open st' = open st.
Proof.
  intros HC Hv Hin.
  destruct (indexOf_elem_of vs item Hin) as (i & Hi & Hl & Hfirst).
  exists i. unfold step, exec. simpl. unfold handleSelectedItemClick.
  rewrite Hv. simpl. rewrite Hi.
  eexists. split; [reflexivity|]. split; [done|]. split; [done|].
  split; [apply (derive_same p st); try done; by destruct st|].
  by destruct st.
Qed.

Lemma chip_click_activates_chip_witness :
  ∃ st', step (withItems xyz true BuiltinSearch)
           (stateWith (withItems xyz true BuiltinSearch) false None
              (Multi [Str "X"; Str "Y"]) [Str "Z"] None None)
           (SelectedItemClick (Str "Y")) = Ok st' ∧
         activeSelectedIndex st' = Some 1%Z.
Proof.
  destruct (chip_click_activates_chip (withItems xyz true BuiltinSearch)
              (stateWith (withItems xyz true BuiltinSearch) false None
                 (Multi [Str "X"; Str "Y"]) [Str "Z"] None None)
              (Str "Y") [Str "X"; Str "Y"] eq_refl eq_refl)
    as (i & st' & _ & _ & _ & H1 & _).
  - apply (bool_decide_unpack _). vm_compute. reflexivity.
  - exists st'. split; [exact H1|].
    vm_compute in H1. by injection H1 as <-.
Defined.

(** X20: in single mode the index recorded by a selection is the first
    position of the item in [items]; for an item that is not in [items] the
    recorded index is -1. *)
Theorem select_records_first_position p st item its :
  multiple p = false → items p = Some its → truthy item = true →
  ∃ st', step p st (SelectedChange item) = Ok st' ∧
         (item ∈ its →
          ∃ i, highlightedIndex st' = Some (Z.of_nat i) ∧
               its !! i = Some item ∧
               ∀ j, (j < i)%nat → its !! j ≠ Some item) ∧
         (item ∉ its → highlightedIndex st' = Some (-1)%Z).
Proof.
  intros Hm Hits Ht.
  destruct (select_single p st item its Hm Hits Ht)
    as (st' & Hstep & _ & _ & Hh & _).
  exists st'. split; [done|]. split.
  - intros Hin. destruct (indexOf_elem_of its item Hin) as (i & Hi & ? & ?).
    exists i. by rewrite Hh, Hi.
  - intros Hn. by rewrite Hh, indexOf_not_elem_of.
Qed.

Lemma select_records_first_position_witness :
  ∃ st', step (withItems fruit false NoSearch)
           (stateWith (withItems fruit false NoSearch) false None
              (Single None) fruit (Some ["apple"; "banana"; "cherry"])
              (Some ""))
           (SelectedChange (Str "Durian")) = Ok st' ∧
         highlightedIndex st' = Some (-1)%Z.
Proof.
  destruct (select_records_first_position (withItems fruit false NoSearch)
              (stateWith (withItems fruit false NoSearch) false None
                 (Single None) fruit (Some ["apple"; "banana"; "cherry"])
                 (Some ""))
              (Str "Durian") fruit eq_refl eq_refl eq_refl)
    as (st' & H1 & _ & H2).
  exists st'. split; [exact H1|]. apply H2.
  apply (bool_decide_unpack _). vm_compute. reflexivity.
Defined.

(** X21: clearing makes every item a candidate again: with no search or
    the built-in search, the candidate list after [clear()] is the whole of
    [items]. *)
Theorem clear_restores_all_candidates p st its :
  items p = Some its → search p = NoSearch ∨ search p = BuiltinSearch →
  ∃ st', step p st Clear = Ok st' ∧ filteredItems st' = Some its.
Proof.
  intros Hits Hs. unfold step, exec. simpl. unfold handleClear.
  unfold tryFocusSearchInput, tryFocusTriggerButton.
  assert (Hd : ∀ s,
    value s = (if multiple p then Multi [] else Single None) →
    searchQuery s = (if searchTruthy (search p) then Some "" else None) →
    ∃ t, derive p s = Ok t ∧ filteredItems t = Some its).
  { intros s Hv Hq.
    assert (Hc : filteredItemsByValue p its (value s) = its).
    { unfold filteredItemsByValue. rewrite Hv.
      destruct (multiple p); [apply list_difference_nil|done]. }
    unfold derive. destruct Hs as [Hs|Hs].
    - unfold getAutoControlledStateFromProps. rewrite Hits, Hs.
      change (if multiple p then _ else its)
        with (filteredItemsByValue p its (value s)).
      rewrite Hc. simpl. eexists. split; [done|]. by destruct s.
    - rewrite Hs in Hq. simpl in Hq.
      rewrite (builtin_search_filter p s its "" Hits Hs Hq), Hc.
      rewrite filter_all
        by (intros x _; unfold matchesQuery; simpl; apply includes_empty).
      simpl. eexists. split; [done|]. by destruct s. }
  destruct (searchTruthy (search p)) eqn:Hst; simpl.
  all: apply Hd; rewrite ?Hst; by destruct st.
Qed.

Lemma clear_restores_all_candidates_witness :
  ∃ st', step (withItems xyz true BuiltinSearch)
           (stateWith (withItems xyz true BuiltinSearch) true (Some 0%Z)
              (Multi [Str "X"; Str "Y"]) [Str "Z"] None None)
           Clear = Ok st' ∧
         filteredItems st' = Some xyz.
Proof.
  apply (clear_restores_all_candidates (withItems xyz true BuiltinSearch)
           (stateWith (withItems xyz true BuiltinSearch) true (Some 0%Z)
              (Multi [Str "X"; Str "Y"]) [Str "Z"] None None) xyz).
  - reflexivity.
  - right. reflexivity.
Defined.

(** X22: with an [onAdd] formatter configured, a selection restarts the
    announcement timer (the pending one is cleared before the new one is
    set, 500 ms) and sets the announcement to the formatted item; when the
    timer fires the announcement is emptied and the selection is
    untouched. *)
Theorem selection_is_announced p st item m f :
  getA11ySelectionMessage p = Some m → onAdd m = Some f →
  truthy item = true →
  (multiple p = false → is_Some (items p)) →
  (multiple p = true → ∃ vs, value st = Multi vs) →
  ∃ effs,
    handleSelectedChange p st item = Ok effs ∧
    sublist [ClearTimeout a11yStatusTimeout;
             SetState [Set_a11ySelectionStatus (f item)];
             SetTimeout a11yStatusTimeout 500] effs ∧
    ∃ st',
      step p st (SelectedChange item) = Ok st' ∧
      a11ySelectionStatus st' = f item ∧
      ∃ st'', step p st' A11yStatusTimeout = Ok st'' ∧
              a11ySelectionStatus st'' = "" ∧
              value st'' = value st' ∧
              searchQuery st'' = searchQuery st'.
Proof.
  intros Ha Hf Ht Hsingle Hmulti.
  assert (Htimeout : ∀ s, Consistent p s →
    ∃ s'', step p s A11yStatusTimeout = Ok s'' ∧
           a11ySelectionStatus s'' = "" ∧ value s'' = value s ∧
           searchQuery s'' = searchQuery s).
  { intros s HC. unfold step, exec. simpl.
    eexists. split; [apply (derive_same p s); try done; by destruct s|].
    by destruct s. }
  assert (Hstep : ∀ effs, handleSelectedChange p st item = Ok effs →
    ∀ st', derive p (foldl (applyEffect) st effs) = Ok st' →
    step p st (SelectedChange item) = Ok st').
  { intros effs He st' Hd. unfold step, exec. simpl. by rewrite He. }
  revert Hstep. unfold handleSelectedChange.
  rewrite (getSelectedItemAsString_truthy _ _ Ht), Ha. simpl. rewrite Hf.
  unfold tryFocusTriggerButton.
  destruct (multiple p) eqn:Hm.
  - destruct (Hmulti eq_refl) as [vs Hv]. rewrite Hv. simpl.
    destruct (negb (searchTruthy (search p))); simpl; intros Hstep.
    all: eexists; split; [reflexivity|]; split;
      [repeat first [apply sublist_nil | apply sublist_skip
                    | apply sublist_cons]|].
    all: edestruct (derive_total p) as [t Ht'];
      [|exists t; split; [by eapply Hstep|]].
    all: try (intros _; simpl; by destruct st; simpl; eauto).
    all: pose proof (derive_fields _ _ _ Ht') as (_ & _ & _ & _ & _ & _ & ->).
    all: split; [by destruct st|].
    all: apply Htimeout; eapply step_Consistent; by eapply Hstep.
  - destruct (Hsingle eq_refl) as [its Hits]. rewrite Hits. simpl.
    destruct (negb (searchTruthy (search p))); simpl; intros Hstep.
    all: eexists; split; [reflexivity|]; split;
      [repeat first [apply sublist_nil | apply sublist_skip
                    | apply sublist_cons]|].
    all: edestruct (derive_total p) as [t Ht'];
      [|exists t; split; [by eapply Hstep|]].
    all: try (intros _; simpl; by destruct st; simpl; eauto).
    all: pose proof (derive_fields _ _ _ Ht') as (_ & _ & _ & _ & _ & _ & ->).
    all: split; [by destruct st|].
    all: apply Htimeout; eapply step_Consistent; by eapply Hstep.
Qed.

Lemma selection_is_announced_witness :
  ∃ st', step (announcing true NoSearch)
           (stateWith (announcing true NoSearch) true (Some 1%Z)
              (Multi []) xyz None None)
           (SelectedChange (Str "Y")) = Ok st' ∧
         a11ySelectionStatus st' = "Y added".
Proof.
  destruct (selection_is_announced (announcing true NoSearch)
              (stateWith (announcing true NoSearch) true (Some 1%Z)
                 (Multi []) xyz None None)
              (Str "Y") _ _ eq_refl eq_refl eq_refl)
    as (effs & _ & _ & st' & H1 & H2 & _).
  - discriminate.
  - intros _. by exists [].
  - exists st'. split; [exact H1|exact H2].
Defined.

(** * The dialog *)

Lemma dialog_step_open st e :
  Dialog.open (Dialog.step st e)
  = if Dialog.isInsideClick e then Dialog.open st
    else match e with
         | Dialog.TriggerClick => true
         | _ => false
         end.
Proof. by destruct e as [| | |[|]| |]. Qed.

Lemma dialog_step_notifications e :
  Dialog.notifications (Dialog.handler e)
  = if Dialog.isInsideClick e then []
    else [(match e with
           | Dialog.TriggerClick => Dialog.onOpen
           | Dialog.ConfirmButtonClick => Dialog.onConfirm
           | _ => Dialog.onCancel
           end,
           match e with
           | Dialog.TriggerClick => true
           | _ => false
           end)].
Proof. by destruct e as [| | |[|]| |]. Qed.

(** X23: after any sequence of events a dialog is open exactly when the last
    event, clicks inside the dialog content set aside, was a click on the
    trigger.  A click on the overlay inside the content changes and notifies
    nothing; every other event notifies exactly one handler ([onOpen] for
    the trigger, [onConfirm] for the confirm button, [onCancel] for
    everything else) with the value that [open] takes. *)
Theorem dialog_open_iff_last_event_opens (es : list Dialog.Event) :
  Dialog.open (Dialog.run es)
  = match last (filter (λ e, Dialog.isInsideClick e = false) es) with
    | Some Dialog.TriggerClick => true
    | _ => false
    end ∧
  ∀ st e,
    (Dialog.isInsideClick e = true →
     Dialog.notifications (Dialog.handler e) = [] ∧ Dialog.step st e = st) ∧
    (Dialog.isInsideClick e = false →
     ∃ h, Dialog.notifications (Dialog.handler e)
            = [(h, Dialog.open (Dialog.step st e))] ∧
          (h = Dialog.onOpen ↔ e = Dialog.TriggerClick) ∧
          (h = Dialog.onConfirm ↔ e = Dialog.ConfirmButtonClick)).
Proof.
  split.
  - unfold Dialog.run.
    induction es as [|e es IH] using rev_ind; [done|].
    rewrite foldl_app, filter_app. simpl.
    rewrite dialog_step_open, IH.
    destruct (Dialog.isInsideClick e) eqn:He.
    + rewrite filter_cons_False by (by rewrite He). by rewrite app_nil_r.
    + rewrite filter_cons_True by done. rewrite filter_nil, last_snoc.
      by destruct e.
  - intros st e. split; intros He.
    + rewrite dialog_step_notifications, He. split; [done|].
      by destruct e as [| | |[|]| |], st.
    + rewrite dialog_step_notifications, dialog_step_open, He.
      eexists. split; [done|]. by destruct e as [| | |[|]| |].
Qed.

Lemma dialog_open_iff_last_event_opens_witness :
  Dialog.open
    (Dialog.run [Dialog.TriggerClick; Dialog.OverlayClick true]) = true ∧
  Dialog.notifications (Dialog.handler (Dialog.OverlayClick false))
    = [(Dialog.onCancel, false)].
Proof.
  destruct (dialog_open_iff_last_event_opens
              [Dialog.TriggerClick; Dialog.OverlayClick true]) as [H1 H2].
  split; [exact H1|].
  destruct (H2 Dialog.getInitialAutoControlledState
              (Dialog.OverlayClick false)) as [_ H3].
  destruct (H3 eq_refl) as (h & H4 & _).
  vm_compute in H4. vm_compute. reflexivity.
Defined.

(** * Chat items *)

Section ChatFacts.

Variable Date : Type.
Variable areSameDay : Date → Date → bool.
Variable getFriendlyDateString : Date → string.

#[local] Abbreviation MessageData := (Chat.MessageData Date).
#[local] Abbreviation messageItems :=
  (Chat.messageItems Date areSameDay getFriendlyDateString).
#[local] Abbreviation generateChatProps :=
  (Chat.generateChatProps Date areSameDay getFriendlyDateString).
#[local] Abbreviation unknownSender := (Chat.unknownSender Date).

Lemma generateChatMsgProps_Ok m u :
  (Chat.data_mine Date m = true ∨ is_Some u) →
  ∃ item, Chat.generateChatMsgProps Date m u = Ok item ∧
          Chat.isMine item = Chat.data_mine Date m ∧
          Chat.messageTexts [item] = [Chat.data_content Date m] ∧
          Chat.dividerContents [item] = [] ∧
          item ≠ Chat.lastReadDivider.
Proof.
  unfold Chat.generateChatMsgProps.
  intros [Hm|[u' ->]].
  - rewrite Hm. simpl. eexists. by repeat split.
  - destruct (Chat.data_mine Date m); simpl; eexists; by repeat split.
Qed.

Lemma generateChatMsgProps_TypeError members m :
  Chat.generateChatMsgProps Date m (members !! Chat.from Date m) = TypeError
  ↔ unknownSender members m.
Proof.
  unfold Chat.generateChatMsgProps, Chat.unknownSender.
  destruct (Chat.data_mine Date m); simpl.
  - split; [done|]. by intros [? _].
  - destruct (members !! Chat.from Date m); simpl.
    + split; [done|]. by intros [_ ?].
    + done.
Qed.

Lemma messageItems_TypeError members m rest :
  messageItems members m rest = TypeError ↔
  ∃ x, x ∈ m :: rest ∧ unknownSender members x.
Proof.
  revert m. induction rest as [|m2 rest IH]; intros m; simpl.
  - destruct (Chat.generateChatMsgProps Date m _) eqn:E; simpl.
    + split; [done|]. intros (x & Hx & Hu).
      apply list_elem_of_singleton in Hx as ->.
      apply generateChatMsgProps_TypeError in Hu. congruence.
    + split; [|done]. intros _. exists m. split; [left|].
      by apply generateChatMsgProps_TypeError.
  - destruct (Chat.generateChatMsgProps Date m _) eqn:E; simpl.
    + destruct (messageItems members m2 rest) eqn:E2; simpl.
      * split; [done|]. intros (x & Hx & Hu).
        apply elem_of_cons in Hx as [->|Hx].
        -- apply generateChatMsgProps_TypeError in Hu. congruence.
        -- assert (messageItems members m2 rest = TypeError)
             by (apply IH; eauto).
           congruence.
      * split; [|done]. intros _.
        destruct (proj1 (IH m2) E2) as (x & Hx & Hu).
        exists x. split; [by right|done].
    + split; [|done]. intros _. exists m. split; [left|].
      by apply generateChatMsgProps_TypeError.
Qed.

(** What the loop builds: the messages in order, a divider at each change of
    day, the last message at the end. *)
Lemma messageItems_Ok members m rest items :
  messageItems members m rest = Ok items →
  Chat.messageTexts items = map (Chat.data_content Date) (m :: rest) ∧
  length (Chat.dividerContents items)
    = Chat.dayChanges Date areSameDay m rest ∧
  (∃ item lastMsg, last items = Some item ∧
                   last (m :: rest) = Some lastMsg ∧
                   Chat.isMine item = Chat.data_mine Date lastMsg) ∧
  (Chat.lastReadDivider ∉ items) ∧
  (Forall (λ x, Chat.isMine x = false) items ↔
   Forall (λ x, Chat.data_mine Date x = false) (m :: rest)).
Proof.
  revert m items. induction rest as [|m2 rest IH]; intros m items.
  - simpl.
    destruct (Chat.generateChatMsgProps Date m _) as [item|] eqn:E;
      simpl; [|done].
    intros [= <-].
    destruct (generateChatMsgProps_Ok m (members !! Chat.from Date m))
      as (item' & E' & Hmine & Htext & Hdiv & Hne).
    { destruct (Chat.data_mine Date m) eqn:Hm; [by left|right].
      destruct (members !! Chat.from Date m) eqn:Hu; [done|].
      assert (Chat.generateChatMsgProps Date m (members !! Chat.from Date m)
              = TypeError)
        by (apply generateChatMsgProps_TypeError; split; done).
      congruence. }
    rewrite E in E'. injection E' as <-.
    split; [done|]. split; [by rewrite Hdiv|].
    split; [by exists item, m|]. split.
    + by intros ?%list_elem_of_singleton.
    + rewrite !Forall_singleton. by rewrite Hmine.
  - cbn [Chat.messageItems].
    destruct (Chat.generateChatMsgProps Date m _) as [item|] eqn:E;
      simpl; [|done].
    destruct (messageItems members m2 rest) as [items'|] eqn:E2;
      simpl; [|done].
    intros [= <-].
    destruct (IH m2 items' E2)
      as (Ht & Hd & (li & lm & Hl & Hlast & Hlm) & Hnl & Hall).
    destruct (generateChatMsgProps_Ok m (members !! Chat.from Date m))
      as (item' & E' & Hmine & Htext & Hdiv & Hne).
    { destruct (Chat.data_mine Date m) eqn:Hm; [by left|right].
      destruct (members !! Chat.from Date m) eqn:Hu; [done|].
      assert (Chat.generateChatMsgProps Date m (members !! Chat.from Date m)
              = TypeError)
        by (apply generateChatMsgProps_TypeError; split; done).
      congruence. }
    rewrite E in E'. injection E' as <-.
    assert (Hitem : ∀ l, Chat.messageTexts (item :: l)
                         = Chat.data_content Date m :: Chat.messageTexts l).
    { intros l. change (item :: l) with ([item] ++ l).
      unfold Chat.messageTexts in *. by rewrite omap_app, Htext. }
    assert (Hitemd : ∀ l, Chat.dividerContents (item :: l)
                          = Chat.dividerContents l).
    { intros l. change (item :: l) with ([item] ++ l).
      unfold Chat.dividerContents in *. by rewrite omap_app, Hdiv. }
    split; [|split; [|split; [|split]]].
    + rewrite Hitem. destruct (areSameDay _ _); simpl; by rewrite Ht.
    + rewrite Hitemd. destruct (areSameDay _ _); simpl; by rewrite Hd.
    + exists li, lm. split; [|done].
      destruct items' as [|i l]; [done|].
      destruct (areSameDay _ _); simpl; exact Hl.
    + intros Hin. apply elem_of_cons in Hin as [Heq|Hin]; [by apply Hne|].
      destruct (areSameDay _ _); simpl in Hin; [done|].
      apply elem_of_cons in Hin as [Heq|Hin]; [discriminate|done].
    + rewrite (Forall_cons _ m), Forall_cons, Hmine.
      destruct (areSameDay _ _); simpl; [by rewrite Hall|].
      rewrite Forall_cons, Hall. simpl. tauto.
Qed.


Lemma findLastIndex_spec {A} (f : A → bool) (l : list A) :
  (Chat.findLastIndex f l = (-1)%Z ∧ Forall (λ x, f x = false) l) ∨
  (∃ before x after,
     l = before ++ x :: after ∧
     Chat.findLastIndex f l = Z.of_nat (length before) ∧
     f x = true ∧ Forall (λ y, f y = false) after).
Proof.
  induction l as [|a l IH]; [by left|].
  simpl. destruct IH as [[-> Hall]|(before & x & after & -> & -> & Hx & Hall)].
  - simpl. destruct (f a) eqn:Ha.
    + right. by exists [], a, l.
    + left. split; [done|]. by constructor.
  - right. exists (a :: before), x, after.
    destruct (Z.geb_spec (Z.of_nat (length before)) 0); [|lia].
    repeat split; try done. simpl. lia.
Qed.

#[local] Arguments Chat.findLastIndex : simpl never.

(** The chat items on success: the date divider and the items of the
    messages, with the "Last read" divider put in after the last item that
    is mine unless that item is the last one. *)
Lemma generateChatProps_Ok members first rest items :
  messageItems members first rest = Ok items →
  let chatProps :=
    Chat.generateDividerProps (getFriendlyDateString (Chat.date Date first))
      None None :: items in
  ∃ l, generateChatProps
         (Some {| Chat.members := Some members;
                  Chat.messages := Some (first :: rest) |}) = Ok l ∧
       ((l = chatProps ∧
         ∃ item, last items = Some item ∧ Chat.isMine item = true) ∨
        (l = Chat.lastReadDivider :: chatProps ∧
         Forall (λ x, Chat.isMine x = false) items) ∨
        (∃ before x after,
           chatProps = before ++ x :: after ∧
           l = before ++ x :: Chat.lastReadDivider :: after ∧
           Chat.isMine x = true ∧ after ≠ [] ∧
           Forall (λ y, Chat.isMine y = false) after)).
Proof.
  intros Hitems chatProps. unfold Chat.generateChatProps. simpl.
  rewrite Hitems. simpl. fold chatProps.
  change (Z.of_nat (S (length items))) with (Z.of_nat (length chatProps)).
  destruct (findLastIndex_spec Chat.isMine chatProps)
    as [[Hk Hall]|(before & x & after & Hl & Hk & Hx & Hall)].
  - rewrite Hk.
    destruct (Z.ltb _ _) eqn:Hc;
      [|apply Z.ltb_ge in Hc; unfold chatProps in Hc; simpl in Hc; lia].
    eexists. split; [done|]. right. left.
    split; [done|]. by apply Forall_cons in Hall as [_ ?].
  - rewrite Hk, Hl. rewrite length_app. simpl.
    destruct after as [|y after].
    + destruct (Z.ltb _ _) eqn:Hc;
        [apply Z.ltb_lt in Hc; simpl in Hc; lia|].
      eexists. split; [done|]. left. split; [done|].
      exists x. split; [|done].
      assert (Hlast : last chatProps = Some x) by (rewrite Hl; apply last_snoc).
      unfold chatProps in Hlast.
      destruct items as [|i items']; [|by rewrite last_cons_cons in Hlast].
      simpl in Hlast. injection Hlast as <-. done.
    + destruct (Z.ltb _ _) eqn:Hc;
        [|apply Z.ltb_ge in Hc; simpl in Hc; lia].
      eexists. split; [done|]. right. right.
      exists before, x, (y :: after).
      split; [done|]. split; [|done].
      unfold Chat.splice.
      replace (Z.to_nat (Z.of_nat (length before) + 1))
        with (length (before ++ [x])) by (rewrite length_app; simpl; lia).
      rewrite (cons_middle x before (y :: after)), app_assoc.
      rewrite take_app_length, drop_app_length.
      by rewrite <- app_assoc.
Qed.

(** X24: generating the chat items returns no items when the chat, its
    members or its messages are missing, and otherwise throws in exactly two
    cases: the list of messages is empty, or some message that is not mine
    comes from a sender who is not among the members. *)
Theorem chat_items_guards (chat : option (Chat.ChatData Date)) :
  (chat = None ∨
   (∃ c, chat = Some c ∧
         (Chat.members Date c = None ∨ Chat.messages Date c = None)) →
   generateChatProps chat = Ok []) ∧
  (generateChatProps chat = TypeError ↔
   ∃ c members msgs,
     chat = Some c ∧ Chat.members Date c = Some members ∧
     Chat.messages Date c = Some msgs ∧
     (msgs = [] ∨ ∃ x, x ∈ msgs ∧ unknownSender members x)).
Proof.
  split.
  - intros [->|(c & -> & [H|H])]; [done| |]; unfold Chat.generateChatProps.
    + by rewrite H.
    + rewrite H. by destruct (Chat.members Date c).
  - destruct chat as [[[members|] [msgs|]]|]; simpl.
    2-4: split; [done|]; by intros (c & m & ms & [= <-] & ? & ? & _).
    2: split; [done|]; by intros (c & m & ms & ? & _).
    destruct msgs as [|first rest].
    + split; [|done]. intros _. eexists _, members, []. eauto.
    + destruct (messageItems members first rest) as [items|] eqn:E.
      * destruct (generateChatProps_Ok members first rest items E)
          as (l & Hl & _).
        unfold Chat.generateChatProps in Hl. simpl in Hl. rewrite E in Hl.
        simpl in *. rewrite Hl.
        split; [done|].
        intros (c & m & ms & [= <-] & [= <-] & [= <-] & [H|H]); [done|].
        apply messageItems_TypeError in H. congruence.
      * simpl. split; [|done]. intros _.
        apply messageItems_TypeError in E.
        eexists _, members, (first :: rest). eauto.
Qed.


Lemma messageTexts_app (l k : list Chat.ChatItem) :
  Chat.messageTexts (l ++ k) = Chat.messageTexts l ++ Chat.messageTexts k.
Proof. apply omap_app. Qed.

Lemma dividerContents_app (l k : list Chat.ChatItem) :
  Chat.dividerContents (l ++ k)
  = Chat.dividerContents l ++ Chat.dividerContents k.
Proof. apply omap_app. Qed.

(** X25: on success every message has exactly one item, in the order of the
    messages, and the dividers never stand for a message: the texts of the
    message items are the contents of the messages. *)
Theorem chat_messages_kept_in_order members msgs l :
  generateChatProps
    (Some {| Chat.members := Some members; Chat.messages := Some msgs |})
    = Ok l →
  Chat.messageTexts l = map (Chat.data_content Date) msgs.
Proof.
  destruct msgs as [|first rest]; [done|].
  destruct (messageItems members first rest) as [items|] eqn:E.
  - destruct (generateChatProps_Ok members first rest items E)
      as (l' & -> & Hcases).
    intros [= <-].
    destruct (messageItems_Ok members first rest items E) as (Ht & _).
    destruct Hcases as [[-> _]|[[-> _]|(before & x & after & Hc & -> & _)]].
    + exact Ht.
    + exact Ht.
    + assert (Hx : Chat.messageTexts (before ++ x :: after)
                   = map (Chat.data_content Date) (first :: rest))
        by (rewrite <- Hc; exact Ht).
      rewrite <- Hx, !messageTexts_app.
      change (x :: Chat.lastReadDivider :: after)
        with ([x] ++ [Chat.lastReadDivider] ++ after).
      change (x :: after) with ([x] ++ after).
      by rewrite !messageTexts_app.
  - unfold Chat.generateChatProps. simpl. by rewrite E.
Qed.

(** X26: the "Last read" divider.  When the last message is mine there is no
    such divider.  Otherwise there is exactly one, right after the last item
    that is mine, and every item after it is not mine; when no message is
    mine it comes first, before the date divider of the first message. *)
Theorem last_read_divider_placement members first rest l :
  generateChatProps
    (Some {| Chat.members := Some members;
             Chat.messages := Some (first :: rest) |}) = Ok l →
  ∃ items lastMsg,
    messageItems members first rest = Ok items ∧
    last (first :: rest) = Some lastMsg ∧
    (Chat.data_mine Date lastMsg = true →
     l = Chat.generateDividerProps
           (getFriendlyDateString (Chat.date Date first)) None None :: items
     ∧ (Chat.lastReadDivider ∉ l)) ∧
    (Chat.data_mine Date lastMsg = false →
     ∃ before after,
       l = before ++ Chat.lastReadDivider :: after ∧
       before ++ after
       = Chat.generateDividerProps
           (getFriendlyDateString (Chat.date Date first)) None None :: items
       ∧ (Chat.lastReadDivider ∉ before ++ after) ∧
       after ≠ [] ∧ Forall (λ y, Chat.isMine y = false) after ∧
       (before = [] ∨ ∃ y, last before = Some y ∧ Chat.isMine y = true)) ∧
    (Forall (λ m, Chat.data_mine Date m = false) (first :: rest) →
     l = Chat.lastReadDivider
         :: Chat.generateDividerProps
              (getFriendlyDateString (Chat.date Date first)) None None
         :: items).
Proof.
  destruct (messageItems members first rest) as [items|] eqn:E;
    [|unfold Chat.generateChatProps; simpl; by rewrite E].
  destruct (generateChatProps_Ok members first rest items E)
    as (l' & -> & Hcases).
  intros [= <-].
  destruct (messageItems_Ok members first rest items E)
    as (_ & _ & (li & lm & Hli & Hlm & Hmine) & Hnot & Hall).
  set (chatProps := Chat.generateDividerProps
         (getFriendlyDateString (Chat.date Date first)) None None :: items)
    in *.
  assert (Hnl : Chat.lastReadDivider ∉ chatProps).
  { intros Hin. apply elem_of_cons in Hin as [Heq|Hin]; [discriminate|done]. }
  assert (Hlast : last chatProps = Some li).
  { unfold chatProps. destruct items; [done|]. by rewrite last_cons_cons. }
  exists items, lm. split; [done|]. split; [done|].
  destruct Hcases
    as [[-> (i & Hi & Himine)]
       |[[-> Hf]|(before & x & after & Hc & -> & Hx & Hne & Hf)]].
  - assert (i = li) as -> by congruence.
    assert (Hm : Chat.data_mine Date lm = true) by congruence.
    split; [done|]. split; [congruence|].
    intros Hfalse. apply Hall in Hfalse.
    rewrite Forall_forall in Hfalse.
    assert (Chat.isMine li = false)
      by (apply Hfalse; by eapply last_Some_elem_of).
    congruence.
  - assert (Hm : Chat.data_mine Date lm = false).
    { rewrite <- Hmine. rewrite Forall_forall in Hf. apply Hf.
      by eapply last_Some_elem_of. }
    split; [congruence|]. split; [|done].
    intros _. exists [], chatProps.
    repeat split; try done.
    + constructor; [done|exact Hf].
    + by left.
  - assert (Hlast' : last after = Some li).
    { rewrite Hc, last_app_cons in Hlast.
      destruct after as [|a after']; [done|].
      by rewrite last_cons_cons in Hlast. }
    assert (Hm : Chat.data_mine Date lm = false).
    { rewrite <- Hmine. rewrite Forall_forall in Hf. apply Hf.
      by eapply last_Some_elem_of. }
    split; [congruence|]. split.
    + intros _. exists (before ++ [x]), after.
      rewrite <- !app_assoc. simpl. rewrite <- Hc.
      repeat split; try done.
      right. exists x. by rewrite last_snoc.
    + intros Hfalse. apply Hall in Hfalse.
      assert (Hxin : x ∈ chatProps)
        by (rewrite Hc; apply elem_of_app; right; left).
      apply elem_of_cons in Hxin as [->|Hxin]; [done|].
      rewrite Forall_forall in Hfalse. rewrite (Hfalse x Hxin) in Hx. done.
Qed.

(** X27: on success the items hold one date divider for the first message,
    one more for every two adjacent messages that are not of the same day,
    and the "Last read" divider exactly when the last message is not
    mine. *)
Theorem chat_dividers_counted members first rest l :
  generateChatProps
    (Some {| Chat.members := Some members;
             Chat.messages := Some (first :: rest) |}) = Ok l →
  ∃ lastMsg,
    last (first :: rest) = Some lastMsg ∧
    length (Chat.dividerContents l)
    = (1 + Chat.dayChanges Date areSameDay first rest
       + (if Chat.data_mine Date lastMsg then 0 else 1))%nat ∧
    getFriendlyDateString (Chat.date Date first) ∈ Chat.dividerContents l.
Proof.
  destruct (messageItems members first rest) as [items|] eqn:E;
    [|unfold Chat.generateChatProps; simpl; by rewrite E].
  destruct (generateChatProps_Ok members first rest items E)
    as (l' & -> & Hcases).
  intros [= <-].
  destruct (messageItems_Ok members first rest items E)
    as (_ & Hd & (li & lm & Hli & Hlm & Hmine) & _ & _).
  set (chatProps := Chat.generateDividerProps
         (getFriendlyDateString (Chat.date Date first)) None None :: items)
    in *.
  assert (Hlast : last chatProps = Some li).
  { unfold chatProps. destruct items; [done|]. by rewrite last_cons_cons. }
  assert (Hbase : Chat.dividerContents chatProps
                  = getFriendlyDateString (Chat.date Date first)
                    :: Chat.dividerContents items) by done.
  exists lm. split; [done|].
  destruct Hcases
    as [[-> (i & Hi & Himine)]
       |[[-> Hf]|(before & x & after & Hc & -> & Hx & Hne & Hf)]].
  - assert (i = li) as -> by congruence.
    rewrite <- Hmine, Himine, Hbase. simpl. split; [lia|left].
  - assert (Hm : Chat.data_mine Date lm = false).
    { rewrite <- Hmine. rewrite Forall_forall in Hf. apply Hf.
      by eapply last_Some_elem_of. }
    rewrite Hm.
    change (Chat.dividerContents (Chat.lastReadDivider :: chatProps))
      with ("Last read" :: Chat.dividerContents chatProps).
    rewrite Hbase. simpl. split; [lia|right; left].
  - assert (Hlast' : last after = Some li).
    { rewrite Hc, last_app_cons in Hlast.
      destruct after as [|a after']; [done|].
      by rewrite last_cons_cons in Hlast. }
    assert (Hm : Chat.data_mine Date lm = false).
    { rewrite <- Hmine. rewrite Forall_forall in Hf. apply Hf.
      by eapply last_Some_elem_of. }
    rewrite Hm.
    assert (Hlen : Chat.dividerContents (before ++ x :: after)
                   = getFriendlyDateString (Chat.date Date first)
                     :: Chat.dividerContents items)
      by (rewrite <- Hc; exact Hbase).
    change (x :: Chat.lastReadDivider :: after)
      with ([x] ++ [Chat.lastReadDivider] ++ after).
    change (x :: after) with ([x] ++ after) in Hlen.
    rewrite !dividerContents_app in *.
    change (Chat.dividerContents [Chat.lastReadDivider]) with ["Last read"].
    split.
    + apply (f_equal length) in Hlen. rewrite !length_app in *.
      simpl in *. lia.
    + assert (Hin : getFriendlyDateString (Chat.date Date first)
                    ∈ Chat.dividerContents before
                      ++ Chat.dividerContents [x]
                      ++ Chat.dividerContents after)
        by (rewrite Hlen; left).
      rewrite !elem_of_app in *. simpl. tauto.
Qed.

End ChatFacts.

Lemma chat_items_guards_witness :
  Chat.generateChatProps nat Nat.eqb Chat.sampleDay
    (Chat.sampleChat [Chat.sampleMessage "1" "bob" "hi" false 0]) = TypeError.
Proof.
  apply (chat_items_guards nat Nat.eqb Chat.sampleDay).
  eexists _, Chat.sampleMembers, _. repeat split.
  right. eexists. split; [left|]. by vm_compute.
Defined.

Lemma chat_messages_kept_in_order_witness :
  ∃ l, Chat.generateChatProps nat Nat.eqb Chat.sampleDay
         (Chat.sampleChat [Chat.sampleMessage "1" "ann" "hi" false 1;
                           Chat.sampleMessage "2" "me" "hello" true 0])
       = Ok l ∧
       Chat.messageTexts l = ["hi"; "hello"].
Proof.
  eexists. split; [by vm_compute|].
  apply (chat_messages_kept_in_order nat Nat.eqb Chat.sampleDay
           Chat.sampleMembers
           [Chat.sampleMessage "1" "ann" "hi" false 1;
            Chat.sampleMessage "2" "me" "hello" true 0]).
  by vm_compute.
Defined.

Lemma last_read_divider_placement_witness :
  ∃ l items,
    Chat.generateChatProps nat Nat.eqb Chat.sampleDay
      (Chat.sampleChat [Chat.sampleMessage "1" "me" "hello" true 1;
                        Chat.sampleMessage "2" "ann" "hi" false 0])
    = Ok l ∧
    ∃ before after,
      l = before ++ Chat.lastReadDivider :: after ∧
      before ++ after
      = Chat.generateDividerProps (Chat.sampleDay 1) None None :: items.
Proof.
  eexists.
  edestruct (last_read_divider_placement nat Nat.eqb Chat.sampleDay
               Chat.sampleMembers
               (Chat.sampleMessage "1" "me" "hello" true 1)
               [Chat.sampleMessage "2" "ann" "hi" false 0])
    as (items & lastMsg & _ & Hl & _ & H & _).
  - by vm_compute.
  - exists items. split; [reflexivity|].
    injection Hl as <-.
    destruct (H eq_refl) as (before & after & H1 & H2 & _).
    by exists before, after.
Defined.

Lemma chat_dividers_counted_witness :
  ∃ l, Chat.generateChatProps nat Nat.eqb Chat.sampleDay
         (Chat.sampleChat [Chat.sampleMessage "1" "me" "hello" true 1;
                           Chat.sampleMessage "2" "ann" "hi" false 0])
       = Ok l ∧
       length (Chat.dividerContents l) = 3%nat.
Proof.
  eexists.
  edestruct (chat_dividers_counted nat Nat.eqb Chat.sampleDay
               Chat.sampleMembers
               (Chat.sampleMessage "1" "me" "hello" true 1)
               [Chat.sampleMessage "2" "ann" "hi" false 0])
    as (lastMsg & Hl & Hn & _).
  - by vm_compute.
  - split; [reflexivity|]. injection Hl as <-. exact Hn.
Defined.
